(** * Verification of the Raspberry Pi video streamer

    Shallow embedding of [pi_server_enhanced.py] (shared state, recording,
    streaming loop, UDP command listener, TCP status server), of the
    streaming loop and command listener of [main_lightweight.py], and of
    the routing and the download path of [web_bridge.py].

    Conventions of the embedding:
    - a Python [bytes] value is a list of integers in [0, 256);
    - a Python [str] is a Rocq [string] holding its UTF-8 encoding;
    - Python [int] is [Z] (unbounded, as in the source), a Python [float]
      is a binary64 [float];
    - an exception is a distinguished result ([None], or the [Raise] flow);
    - everything the code asks of its environment (clock, camera, codec,
      network, whether a writer opens) is an explicit input of the step;
      what the video writer puts on disk, call after call, is carried in
      the world. *)

From Stdlib Require Import ZArith Lia Ascii String.
From Stdlib Require Import PrimFloat FloatOps SpecFloat.
From stdpp Require Import base numbers list strings gmap pretty.
From Equations Require Import Equations.

Local Open Scope string_scope.
Local Open Scope list_scope.
Local Open Scope Z_scope.

(** ** Bytes and text *)

Definition byte_of_ascii (a : ascii) : Z := Z.of_N (Ascii.N_of_ascii a).

(** [str.encode()] *)
Definition encode (s : string) : list Z :=
  map byte_of_ascii (String.list_ascii_of_string s).

Definition newline : string := String (Ascii.ascii_of_nat 10) EmptyString.

(** ** The packet header: [struct.Struct("!I Q")]

    Network byte order, standard sizes, no padding: a 4-byte unsigned
    integer followed by an 8-byte unsigned integer. *)

Module Struct.

(** The [n] low-order bytes of [v], most significant first. *)
Fixpoint be_bytes (n : nat) (v : Z) : list Z :=
  match n with
  | O => []
  | S k => Z.land (Z.shiftr v (8 * Z.of_nat k)) 255 :: be_bytes k v
  end.

Definition be_step (acc b : Z) : Z := Z.lor (Z.shiftl acc 8) b.

Definition be_value (bs : list Z) : Z := fold_left be_step bs 0.

Definition in_range (bits v : Z) : bool :=
  bool_decide (0 ≤ v) && bool_decide (v < 2 ^ bits).

Definition size : nat := 12.

(** [header_struct.pack(seq, timestamp_ns)]; [None] is [struct.error]
    (an argument outside the range of its field). *)
Definition pack (seq timestamp_ns : Z) : option (list Z) :=
  if in_range 32 seq && in_range 64 timestamp_ns
  then Some (be_bytes 4 seq ++ be_bytes 8 timestamp_ns)
  else None.

(** [header_struct.unpack(buf)]; [None] is [struct.error] (wrong length). *)
Definition unpack (buf : list Z) : option (Z * Z) :=
  if bool_decide (length buf = size)
  then Some (be_value (take 4 buf), be_value (drop 4 buf))
  else None.

End Struct.

(** ** Paths: [os.path.join] and the lookup of an absolute path *)

Module PosixPath.

Definition startswith (s p : string) : bool := String.prefix p s.

Fixpoint endswith_sep (s : string) : bool :=
  match s with
  | EmptyString => false
  | String c EmptyString => bool_decide (c = "/"%char)
  | String _ r => endswith_sep r
  end.

(** [posixpath.join(a, b)]: an absolute [b] discards [a]. *)
Definition join (a b : string) : string :=
  if startswith b "/" then b
  else if bool_decide (a = "") || endswith_sep a then a +:+ b
  else a +:+ "/" +:+ b.

(** [s.split("/")] *)
Fixpoint split_sep (s : string) : list string :=
  match s with
  | EmptyString => [EmptyString]
  | String c r =>
      if bool_decide (c = "/"%char) then EmptyString :: split_sep r
      else match split_sep r with
           | h :: t => String c h :: t
           | [] => [String c EmptyString]
           end
  end.

(** One step of the walk from the root; the directories visited so far
    are kept innermost first. *)
Definition walk (visited : list string) (comp : string) : list string :=
  if bool_decide (comp = "") || bool_decide (comp = ".") then visited
  else if bool_decide (comp = "..") then tail visited
  else comp :: visited.

(** The components of the file an absolute path names. The walk is
    lexical: it never looks at the disk. It agrees with the walk the
    kernel makes when there are no symbolic links and every component the
    path passes through (enters, leaves again with [".."], or ends in
    with a trailing ["/"]) is a directory on disk; a name that is a
    single component under an existing directory is such a path. *)
Definition resolve (p : string) : list string :=
  rev (fold_left walk (split_sep p) []).

End PosixPath.

(** ** The file system seen through [os.path] and [open] *)

Inductive node :=
| File (data : list Z)
| Dir (st_size : Z).

Abbreviation filesystem := (gmap (list string) node).

Definition lookup_path (fs : filesystem) (p : string) : option node :=
  fs !! PosixPath.resolve p.

(** [os.path.exists] *)
Definition path_exists (fs : filesystem) (p : string) : bool :=
  match lookup_path fs p with Some _ => true | None => false end.

(** [os.path.getsize]; [None] is [OSError]. *)
Definition getsize (fs : filesystem) (p : string) : option Z :=
  match lookup_path fs p with
  | Some (File data) => Some (Z.of_nat (length data))
  | Some (Dir n) => Some n
  | None => None
  end.

(** [open(p, 'rb')] followed by reading everything; [None] is [OSError]
    ([FileNotFoundError], [IsADirectoryError]). *)
Definition open_rb (fs : filesystem) (p : string) : option (list Z) :=
  match lookup_path fs p with
  | Some (File data) => Some data
  | _ => None
  end.

(** ** Configuration of [pi_server_enhanced.py] *)

Definition VIDEO_PORT : Z := 5001.
Definition COMMAND_PORT : Z := 5002.
Definition STATUS_PORT : Z := 5003.
Definition RECORDING_DIR : string := "/home/pi/recordings".
Definition MAX_RECORDING_SIZE_MB : Z := 500.

(** ** Shared state *)

(** A [cv2.VideoWriter]: the path it was created for and [isOpened()]. *)
Record VideoWriter := mkWriter {
  vw_path : string;
  vw_opened : bool
}.

(** Readings of [time.time()] are floating-point seconds. *)
Record StreamState := mkState {
  streaming : bool;
  recording : bool;
  pc_ip : option string;
  fps : Z;
  quality : Z;
  resolution : Z * Z;
  frames_sent : Z;
  frames_recorded : Z;
  recording_file : option string;
  recording_start_time : option float;
  video_writer : option VideoWriter;
  session_start : float
}.

(** [StreamState.__init__] *)
Definition StreamState_init (now : float) : StreamState :=
  {| streaming := false; recording := false; pc_ip := None;
     fps := 15; quality := 40; resolution := (640, 480);
     frames_sent := 0; frames_recorded := 0;
     recording_file := None; recording_start_time := None;
     video_writer := None; session_start := now |}.

Definition set_streaming (b : bool) (s : StreamState) : StreamState :=
  mkState b (recording s) (pc_ip s) (fps s) (quality s) (resolution s)
    (frames_sent s) (frames_recorded s) (recording_file s)
    (recording_start_time s) (video_writer s) (session_start s).

Definition set_pc_ip (ip : option string) (s : StreamState) : StreamState :=
  mkState (streaming s) (recording s) ip (fps s) (quality s) (resolution s)
    (frames_sent s) (frames_recorded s) (recording_file s)
    (recording_start_time s) (video_writer s) (session_start s).

Definition set_frames_sent (n : Z) (s : StreamState) : StreamState :=
  mkState (streaming s) (recording s) (pc_ip s) (fps s) (quality s)
    (resolution s) n (frames_recorded s) (recording_file s)
    (recording_start_time s) (video_writer s) (session_start s).

Definition set_frames_recorded (n : Z) (s : StreamState) : StreamState :=
  mkState (streaming s) (recording s) (pc_ip s) (fps s) (quality s)
    (resolution s) (frames_sent s) n (recording_file s)
    (recording_start_time s) (video_writer s) (session_start s).

Definition set_video_writer (vw : option VideoWriter) (s : StreamState)
  : StreamState :=
  mkState (streaming s) (recording s) (pc_ip s) (fps s) (quality s)
    (resolution s) (frames_sent s) (frames_recorded s) (recording_file s)
    (recording_start_time s) vw (session_start s).

Definition set_recording (b : bool) (file : option string)
    (start : option float) (s : StreamState) : StreamState :=
  mkState (streaming s) b (pc_ip s) (fps s) (quality s) (resolution s)
    (frames_sent s) (frames_recorded s) file start (video_writer s)
    (session_start s).

(** The state, the disk, the shared [running] flag ([running_flag[0]]),
    and the part of the video library the code does not see: a writer
    buffers, so what a call puts on disk is not the frame it was given.
    [writer_output] lists, for the calls to come on a writer ([write],
    [release]), the bytes each of them adds to the writer's file: nothing,
    or a block holding frames taken earlier, or, at [release], what is
    still buffered and the index of the file. *)
Record World := mkWorld {
  state : StreamState;
  fs : filesystem;
  running : bool;
  writer_output : list (list Z)
}.

Definition with_state (f : StreamState → StreamState) (w : World) : World :=
  mkWorld (f (state w)) (fs w) (running w) (writer_output w).

(** What a call reads from its environment: [datetime.now()] formatted
    with ["%Y%m%d_%H%M%S"], [time.time()], and whether a new
    [cv2.VideoWriter] opens (then with the bytes the new file starts with). *)
Record Env := mkEnv {
  now_stamp : string;
  now : float;
  writer_opens : option (list Z)
}.

(** Truth value of an optional string, of an optional float. *)
Definition str_truthy (o : option string) : bool :=
  match o with Some s => negb (bool_decide (s = "")) | None => false end.

Definition float_truthy (o : option float) : bool :=
  match o with Some x => negb (PrimFloat.is_zero x) | None => false end.

(** [cv2.VideoWriter(filepath, fourcc, fps, resolution)]: an opened writer
    has created (or truncated) its file. *)
Definition VideoWriter_new (e : Env) (filepath : string) (disk : filesystem)
  : VideoWriter * filesystem :=
  match writer_opens e with
  | Some header =>
      (mkWriter filepath true,
       <[PosixPath.resolve filepath := File header]> disk)
  | None => (mkWriter filepath false, disk)
  end.

(** [put] added at the end of the file at [p], if there is one. *)
Definition append_file (p : string) (put : list Z) (disk : filesystem)
  : filesystem :=
  match lookup_path disk p with
  | Some (File data) => <[PosixPath.resolve p := File (data ++ put)]> disk
  | _ => disk
  end.

(** What the next call on a writer puts on disk: the head of [output],
    nothing once the list is used up. *)
Definition next_put (output : list (list Z)) : list Z :=
  match output with put :: _ => put | [] => [] end.

(** A call on a writer that may reach the disk: an opened writer adds to
    its file what the library puts there at this call; a writer that is
    not opened ignores the call. *)
Definition writer_call (vw : VideoWriter) (disk : filesystem)
    (output : list (list Z)) : filesystem * list (list Z) :=
  if vw_opened vw
  then (append_file (vw_path vw) (next_put output) disk, tail output)
  else (disk, output).

(** [VideoWriter.write(frame)]: the frame goes to the writer's buffer. *)
Definition VideoWriter_write (vw : VideoWriter) (encoded : list Z)
    (disk : filesystem) (output : list (list Z))
  : filesystem * list (list Z) :=
  writer_call vw disk output.

(** [VideoWriter.release()]: what is buffered and the index are written,
    the file is closed. *)
Definition VideoWriter_release (vw : VideoWriter) (disk : filesystem)
    (output : list (list Z)) : filesystem * list (list Z) :=
  writer_call vw disk output.

(** [StreamState.start_recording(filename=None)] *)
Definition start_recording (e : Env) (filename : option string) (w : World)
  : World * (bool * string) :=
  if recording (state w) then (w, (false, "Already recording"))
  else
    let filename :=
      match filename with
      | Some f => f
      | None => "recording_" +:+ now_stamp e +:+ ".avi"
      end in
    let filepath := PosixPath.join RECORDING_DIR filename in
    let '(vw, disk) := VideoWriter_new e filepath (fs w) in
    let s1 := set_video_writer (Some vw) (state w) in
    if negb (vw_opened vw)
    then (mkWorld s1 disk (running w) (writer_output w),
          (false, "Failed to create video writer"))
    else
      let s2 := set_recording true (Some filename) (Some (now e)) s1 in
      let s3 := set_frames_recorded 0 s2 in
      (mkWorld s3 disk (running w) (writer_output w),
       (true, "Recording started: " +:+ filename)).

(** How an f-string shows an optional string. *)
Definition fmt_opt (o : option string) : string :=
  match o with Some s => s | None => "None" end.

(** [int(x)] of a finite float: its integer part, rounding towards zero.
    ([int] raises on an infinity or a NaN; a difference of two readings of
    the clock is neither.) *)
Definition int_of_float (x : float) : Z :=
  match Prim2SF x with
  | S754_finite negative m e =>
      let magnitude := Z.shiftl (Z.pos m) e in
      if negative then - magnitude else magnitude
  | _ => 0
  end.

(** [StreamState.stop_recording()]; [clock] is the reading of
    [time.time()]. The message shows [int(duration)], which is there for
    every finite duration. *)
Definition stop_recording (clock : float) (w : World)
  : World * (bool * string) :=
  let s := state w in
  if negb (recording s) then (w, (false, "Not recording"))
  else
    let '(s1, disk, output) :=
      match video_writer s with
      | Some vw =>
          let '(disk, output) :=
            VideoWriter_release vw (fs w) (writer_output w) in
          (set_video_writer None s, disk, output)
      | None => (s, fs w, writer_output w)
      end in
    let filename := recording_file s1 in
    let seconds :=
      if float_truthy (recording_start_time s1)
      then int_of_float
             (PrimFloat.sub clock
                (default PrimFloat.zero (recording_start_time s1)))
      else 0 in
    let s2 := set_recording false None None s1 in
    (mkWorld s2 disk (running w) output,
     (true,
      "Recording stopped: " +:+ fmt_opt filename +:+ " ("
        +:+ pretty seconds +:+ "s, "
        +:+ pretty (frames_recorded s2) +:+ " frames)")).

(** [StreamState.write_frame(frame)]; [encoded] is the frame as the writer
    will encode it. *)
Definition write_frame (encoded : list Z) (w : World) : World * bool :=
  let s := state w in
  if recording s then
    match video_writer s with
    | Some vw =>
        let '(disk, output) :=
          VideoWriter_write vw encoded (fs w) (writer_output w) in
        (mkWorld (set_frames_recorded (frames_recorded s + 1) s)
                 disk (running w) output,
         true)
    | None => (w, false)
    end
  else (w, false).

(** ** The streaming loop of [pi_server_enhanced.py] *)

Definition address : Type := string * Z.

(** A captured frame, by its encoding in the recording (the bytes the
    writer takes for it) and by its JPEG encoding. *)
Record Frame := mkFrame {
  avi_bytes : list Z;
  jpeg_bytes : list Z
}.

(** What one pass of the loop reads from its environment: [camera.read()],
    [time.time_ns()], whether [sock.sendto] returns (rather than raises),
    and [time.time()]. *)
Record IterEnv := mkIterEnv {
  camera_frame : option Frame;
  timestamp_ns : Z;
  send_ok : bool;
  clock : float
}.

(** What a run leaves behind outside the shared state. *)
Inductive effect :=
| FrameWritten (encoded : list Z)
| PacketSent (packet : list Z) (dest : address)
| RecordingStopped
| Replied (payload : list Z) (dest : address).

(** [Continue]: the loop goes on to its next pass. [Raise]: an exception
    left the loop body, the [finally] block has run, the thread is over. *)
Inductive flow := Continue | Raise.

Record Iteration := mkIteration {
  it_world : World;
  it_seq : Z;
  it_effects : list effect;
  it_flow : flow
}.

(** The cap in bytes. [size / (1024 * 1024) > MAX_RECORDING_SIZE_MB] on
    Python floats holds exactly when [size] exceeds it: the division by a
    power of two is monotone and exact around the cap. *)
Definition cap_bytes : Z := MAX_RECORDING_SIZE_MB * (1024 * 1024).

(** The [finally] block of [stream_video], as far as the state goes. *)
Definition stream_finally (clock : float) (w : World)
  : World * list effect :=
  if recording (state w)
  then (fst (stop_recording clock w), [RecordingStopped])
  else (w, []).

(** "Check recording file size" *)
Definition check_recording_size (clock : float) (w : World)
  : World * list effect :=
  if recording (state w) && str_truthy (recording_file (state w)) then
    let filepath :=
      PosixPath.join RECORDING_DIR (default "" (recording_file (state w))) in
    if path_exists (fs w) filepath then
      match getsize (fs w) filepath with
      | Some size =>
          if bool_decide (cap_bytes < size)
          then (fst (stop_recording clock w), [RecordingStopped])
          else (w, [])
      | None => (w, [])
      end
    else (w, [])
  else (w, []).

(** One pass of the [while running_flag[0]] loop of [stream_video], entered
    with the loop condition true. The pass is taken whole: the command
    thread does not run in the middle of it. The one exception followed
    is the [struct.error] of [pack], which no [try] of the body catches;
    an error out of the camera, the codec, the writer or [os.path] would
    leave the loop the same way and is not among the inputs. *)
Definition stream_iteration (e : IterEnv) (seq : Z) (w : World) : Iteration :=
  if negb (streaming (state w)) then mkIteration w seq [] Continue
  else
    match camera_frame e with
    | None => mkIteration w seq [] Continue
    | Some frame =>
        let '(w1, wrote) := write_frame (avi_bytes frame) w in
        let written := if wrote then [FrameWritten (avi_bytes frame)] else [] in
        match Struct.pack seq (timestamp_ns e) with
        | None =>
            let '(w2, stopped) := stream_finally (clock e) w1 in
            mkIteration w2 seq (written ++ stopped) Raise
        | Some header =>
            let packet := header ++ jpeg_bytes frame in
            let '(w2, seq2, sent) :=
              if str_truthy (pc_ip (state w1)) && send_ok e then
                (with_state
                   (set_frames_sent (frames_sent (state w1) + 1)) w1,
                 seq + 1,
                 [PacketSent packet
                    (default "" (pc_ip (state w1)), VIDEO_PORT)])
              else (w1, seq, []) in
            let '(w3, stopped) := check_recording_size (clock e) w2 in
            mkIteration w3 seq2 (written ++ sent ++ stopped) Continue
        end
    end.

(** ** The streaming loop of [main_lightweight.py] *)

Module Lightweight.

Definition PC_IP : string := "100.100.100.100".
Definition VIDEO_PORT : Z := 5001.

Record Pass := mkPass {
  p_seq : Z;
  p_effects : list effect;
  p_flow : flow
}.

(** One pass of the loop of [stream_video]. *)
Definition stream_iteration (e : IterEnv) (seq : Z) : Pass :=
  match camera_frame e with
  | None => mkPass seq [] Continue
  | Some frame =>
      match Struct.pack seq (timestamp_ns e) with
      | None => mkPass seq [] Raise
      | Some header =>
          let packet := header ++ jpeg_bytes frame in
          if send_ok e
          then mkPass (seq + 1) [PacketSent packet (PC_IP, VIDEO_PORT)]
                      Continue
          else mkPass seq [] Continue
      end
  end.

(** The passes made for the given environment readings, from [seq]. *)
Fixpoint stream_video (envs : list IterEnv) (seq : Z) : Pass :=
  match envs with
  | [] => mkPass seq [] Continue
  | e :: rest =>
      let p := stream_iteration e seq in
      match p_flow p with
      | Raise => p
      | Continue =>
          let q := stream_video rest (p_seq p) in
          mkPass (p_seq q) (p_effects p ++ p_effects q) (p_flow q)
      end
  end.

End Lightweight.

(** ** Reading a file in chunks *)

Definition inspect {A} (a : A) : {b | a = b} := exist _ a eq_refl.

(** [while True: chunk = f.read(k); if not chunk: break; conn.sendall(chunk)]
    over the unread part [rest] of the file: the chunks sent. *)
Equations read_chunks (k : nat) (rest : list Z) : list (list Z)
  by wf (length rest) lt :=
  read_chunks k rest with inspect (take k rest) := {
    | exist _ [] _ => []
    | exist _ (c :: cs) H => (c :: cs) :: read_chunks k (drop k rest) }.
Next Obligation.
  rewrite length_drop.
  destruct k; [discriminate |]. destruct rest; [discriminate |].
  simpl. lia.
Qed.

Definition CHUNK : nat := 8192.

(** ** Text primitives on 7-bit text

    [bytes.decode], [str.strip] and [str.upper] restricted to ASCII; the
    servers below are stated for any such primitives, and run on these. *)

Module Ascii7.

Definition decode (data : list Z) : option string :=
  if forallb (λ b, bool_decide (0 ≤ b < 128)) data
  then Some (String.string_of_list_ascii
               (map (λ b, Ascii.ascii_of_N (Z.to_N b)) data))
  else None.

Definition is_space (a : ascii) : bool :=
  let n := byte_of_ascii a in
  bool_decide (9 ≤ n ≤ 13) || bool_decide (28 ≤ n ≤ 32).

Fixpoint lstrip (s : string) : string :=
  match s with
  | String c r => if is_space c then lstrip r else s
  | EmptyString => EmptyString
  end.

Fixpoint rstrip (s : string) : string :=
  match s with
  | String c r =>
      match rstrip r with
      | EmptyString => if is_space c then EmptyString else String c EmptyString
      | r' => String c r'
      end
  | EmptyString => EmptyString
  end.

Definition strip (s : string) : string := rstrip (lstrip s).

Definition upper_char (a : ascii) : ascii :=
  let n := byte_of_ascii a in
  if bool_decide (97 ≤ n ≤ 122) then Ascii.ascii_of_N (Z.to_N (n - 32))
  else a.

Fixpoint upper (s : string) : string :=
  match s with
  | String c r => String (upper_char c) (upper r)
  | EmptyString => EmptyString
  end.

(** [int] on a non-empty string of decimal digits. *)
Fixpoint digits_value (acc : Z) (s : string) : option Z :=
  match s with
  | EmptyString => Some acc
  | String c r =>
      let n := byte_of_ascii c in
      if bool_decide (48 ≤ n ≤ 57) then digits_value (acc * 10 + (n - 48)) r
      else None
  end.

Definition int (s : string) : option Z :=
  match s with
  | EmptyString => None
  | _ => digits_value 0 s
  end.

End Ascii7.


(** ** Data for worked examples *)

Module Sample.

(** A writer whose first [write] stays in its buffer, whose second puts
    a block of six bytes on disk, and whose next call puts four more. *)
Definition output : list (list Z) :=
  [[]; [1; 2; 3; 1; 2; 3]; [105; 100; 120; 49]].

(** The server as it starts: fresh state, the recordings directory made. *)
Definition world0 : World :=
  mkWorld (StreamState_init 0%float)
    {[ PosixPath.resolve RECORDING_DIR := Dir 4096 ]} true output.

Definition viewer : address := ("100.64.0.2", 40000).
Definition other : address := ("100.64.0.9", 40001).

(** A writer that opens (its file starting with four bytes), one that
    does not. *)
Definition env_opens : Env :=
  mkEnv "20240101_120000" 1000%float (Some [82; 73; 70; 70]).
Definition env_fails : Env := mkEnv "20240101_120000" 1000%float None.

Definition frame : Frame := mkFrame [1; 2; 3] [255; 216; 255; 217].

Definition tick : IterEnv :=
  mkIterEnv (Some frame) 1700000000000000000 true 2000%float.

(** Streaming to [viewer], not recording. *)
Definition streaming_world : World :=
  with_state (λ s, set_pc_ip (Some viewer.1) (set_streaming true s)) world0.

(** Recording. *)
Definition recording_world : World :=
  (start_recording env_opens None world0).1.

(** A disk with a file outside the recordings directory. *)
Definition world_with_passwd : World :=
  mkWorld (StreamState_init 0%float)
    (<[ ["etc"; "passwd"] := File [114; 111; 111; 116] ]> (fs world0))
    true output.

Definition no_status : StreamState → Z → string := λ _ _, "{}".
Definition no_listing : filesystem → string := λ _, "[]".

(** A disk with a recording of five bytes. *)
Definition world_with_clip : World :=
  mkWorld (StreamState_init 0%float)
    (<[ ["home"; "pi"; "recordings"; "clip.avi"] := File [1; 2; 3; 4; 5] ]>
       (fs world0)) true output.

(** Streaming to [viewer] and recording. *)
Definition busy_world : World :=
  with_state (λ s, set_pc_ip (Some viewer.1) (set_streaming true s))
    recording_world.

(** A pass whose [sendto] raises. *)
Definition tick_unsent : IterEnv :=
  mkIterEnv (Some frame) 1700000000000000000 false 2000%float.

(** A frame of 20000 bytes in the recording. *)
Definition big_frame : Frame :=
  mkFrame (replicate (Z.to_nat 20000) 7) [255; 216; 255; 217].

Definition big_tick : IterEnv :=
  mkIterEnv (Some big_frame) 1700000000000000000 true 2000%float.

(** A recording file a hundred bytes short of the cap; a block of 262144
    bytes, which the next call on the writer puts on disk; an index of
    eight bytes, which the call after it (the release) adds. *)
Definition near_cap_file : list Z := replicate (Z.to_nat (cap_bytes - 100)) 0.
Definition block : list Z := replicate (Z.to_nat 262144) 0.
Definition index : list Z := [105; 100; 120; 49; 0; 0; 0; 0].

(** [busy_world] with [data] in the recording file and [output] to come
    from the writer. *)
Definition recording_at (data : list Z) (output : list (list Z)) : World :=
  mkWorld (state busy_world)
    (<[ PosixPath.resolve
          (PosixPath.join RECORDING_DIR "recording_20240101_120000.avi")
        := File data ]> (fs busy_world))
    true output.

Definition near_cap_world : World :=
  recording_at near_cap_file [block; index].

End Sample.

(** ** The servers *)

Record ConnResult := mkConn {
  sent : list (list Z);     (* the payloads of the [conn.sendall] calls *)
  raised : bool             (* an exception reached [except Exception] *)
}.

(** What happens around the server, in the order it happens: a pass of the
    streaming loop, or a datagram arriving on the command port. *)
Inductive event :=
| Tick (e : IterEnv)
| Datagram (e : Env) (data : list Z) (addr : address).

Record System := mkSystem {
  world : World;
  seq : Z;                  (* the local [seq] of [stream_video] *)
  streamer_alive : bool;    (* [stream_video] has not returned or raised *)
  log : list effect
}.

Section Servers.

(** The text primitives of the Python runtime: [bytes.decode('utf-8')]
    ([None] is [UnicodeDecodeError]), [str.strip()] and [str.upper()]. *)
Context (utf8_decode : list Z → option string)
        (str_strip : string → string)
        (str_upper : string → string).

(** The JSON texts of the status server, which no statement below looks
    into: [json.dumps(state.get_stats(), indent=2)] and the listing of
    the recordings directory. *)
Context (status_json : StreamState → Z → string)
        (recordings_json : filesystem → string).

(** *** The command listener *)

(** The body of the loop of [listen_for_commands] for one datagram
    [data] received from [addr]: the new world and the datagrams sent. *)
Definition handle_datagram (e : Env) (data : list Z) (addr : address)
    (w : World) : World * list (list Z * address) :=
  match utf8_decode data with
  | None => (w, [])
  | Some text =>
      let command := str_upper (str_strip text) in
      let '(w', response) :=
        if bool_decide (command = "START") then
          (with_state (λ s, set_pc_ip (Some addr.1) (set_streaming true s)) w,
           "STREAMING_STARTED")
        else if bool_decide (command = "STOP") then
          (with_state (set_streaming false) w, "STREAMING_STOPPED")
        else if bool_decide (command = "RECORD_START") then
          let '(w1, (_, msg)) := start_recording e None w in (w1, msg)
        else if bool_decide (command = "RECORD_STOP") then
          let '(w1, (_, msg)) := stop_recording (now e) w in (w1, msg)
        else if bool_decide (command = "PING") then (w, "PONG")
        else if bool_decide (command = "SHUTDOWN") then
          (mkWorld (state w) (fs w) false (writer_output w), "SHUTTING_DOWN")
        else (w, "OK") in
      (w', [(encode response, addr)])
  end.

(** The datagrams of a list handled in the order received. *)
Definition handle_all (ds : list (Env * list Z * address)) (w : World)
  : World :=
  fold_left (λ w '(e, data, addr), (handle_datagram e data addr w).1) ds w.

(** *** The status server *)

(** [data.split(":", 1)[1]]; [None] is [IndexError]. *)
Fixpoint after_colon (s : string) : option string :=
  match s with
  | EmptyString => None
  | String c r => if bool_decide (c = ":"%char) then Some r else after_colon r
  end.

(** [handle_status_client]: [request] is what [conn.recv(1024)] returned. *)
Definition handle_status_client (clock : Z) (request : list Z) (w : World)
  : ConnResult :=
  match utf8_decode request with
  | None => mkConn [] true
  | Some text =>
      let data := str_strip text in
      if bool_decide (data = "STATUS") then
        mkConn [encode (status_json (state w) clock)] false
      else if bool_decide (data = "LIST_RECORDINGS") then
        mkConn [encode (recordings_json (fs w))] false
      else if PosixPath.startswith data "DOWNLOAD:" then
        match after_colon data with
        | None => mkConn [] true
        | Some rest =>
            let filename := str_strip rest in
            let filepath := PosixPath.join RECORDING_DIR filename in
            if negb (path_exists (fs w) filepath) then
              mkConn [encode "ERROR: File not found"] false
            else
              match getsize (fs w) filepath with
              | None => mkConn [] true
              | Some filesize =>
                  let preamble :=
                    encode ("SIZE:" +:+ pretty filesize +:+ newline) in
                  match open_rb (fs w) filepath with
                  | None => mkConn [preamble] true
                  | Some content =>
                      mkConn (preamble :: read_chunks CHUNK content) false
                  end
              end
        end
      else mkConn [] false
  end.

(** *** The threads together

    The streaming thread and the command thread share the state; each
    event is one whole pass or one whole datagram. A datagram is handled
    only while the process lives (the streaming thread is the main
    thread) and the listener's loop condition holds. *)
Definition sys_step (sys : System) (ev : event) : System :=
  if negb (streamer_alive sys) then sys
  else
    match ev with
    | Tick e =>
        if negb (running (world sys)) then
          let '(w, effs) := stream_finally (clock e) (world sys) in
          mkSystem w (seq sys) false (log sys ++ effs)
        else
          let r := stream_iteration e (seq sys) (world sys) in
          mkSystem (it_world r) (it_seq r)
            (match it_flow r with Continue => true | Raise => false end)
            (log sys ++ it_effects r)
    | Datagram e data addr =>
        if negb (running (world sys)) then sys
        else
          let '(w, replies) := handle_datagram e data addr (world sys) in
          mkSystem w (seq sys) true
            (log sys ++ map (λ r, Replied r.1 r.2) replies)
    end.

Definition run (evs : list event) (sys : System) : System :=
  fold_left sys_step evs sys.

(** The sequence numbers in the headers of the packets sent. *)
Definition sent_seqs (effs : list effect) : list (option Z) :=
  omap (λ eff,
          match eff with
          | PacketSent packet _ =>
              Some (fst <$> Struct.unpack (take Struct.size packet))
          | _ => None
          end) effs.

(** An opened writer starts its file within the cap. *)
Definition env_ok (e : Env) : Prop :=
  match writer_opens e with
  | Some header => Z.of_nat (length header) ≤ cap_bytes
  | None => True
  end.

Definition event_ok (ev : event) : Prop :=
  match ev with
  | Datagram e _ _ => env_ok e
  | Tick _ => True
  end.

(** While recording, the writer is the opened writer of the recording
    file, and that file is on disk within the cap. *)
Definition recording_ok (w : World) : Prop :=
  recording (state w) = true →
  ∃ f data,
    recording_file (state w) = Some f ∧ f ≠ ""
    ∧ video_writer (state w)
      = Some (mkWriter (PosixPath.join RECORDING_DIR f) true)
    ∧ lookup_path (fs w) (PosixPath.join RECORDING_DIR f) = Some (File data)
    ∧ Z.of_nat (length data) ≤ cap_bytes.

(** The four recording fields agree: recording, an opened writer, a
    file name and a start time come and go together. *)
Definition writer_open (s : StreamState) : Prop :=
  ∃ vw, video_writer s = Some vw ∧ vw_opened vw = true.

Definition coherent (s : StreamState) : Prop :=
  (recording s = true ↔ writer_open s)
  ∧ (recording s = true ↔ is_Some (recording_file s))
  ∧ (recording s = true ↔ is_Some (recording_start_time s)).

(** The command a datagram carries, if it decodes. *)
Definition command_of (data : list Z) : option string :=
  (λ text, str_upper (str_strip text)) <$> utf8_decode data.

Definition start_or_stop (d : Env * list Z * address) : Prop :=
  command_of d.1.2 = Some "START" ∨ command_of d.1.2 = Some "STOP".

(** The effect of the last of a list of START and STOP commands on
    [streaming], and the sender of its last START. *)
Definition last_streaming (ds : list (Env * list Z * address)) (init : bool)
  : bool :=
  fold_left (λ _ d, bool_decide (command_of d.1.2 = Some "START")) ds init.

Definition last_start_sender (ds : list (Env * list Z * address))
    (init : option string) : option string :=
  fold_left (λ ip d, if bool_decide (command_of d.1.2 = Some "START")
                     then Some d.2.1 else ip) ds init.


(** One pass either sends one packet, numbered [seq], and moves on to
    [seq + 1], or sends none and keeps [seq]. *)
Definition pass_ok (seq seq' : Z) (effs : list effect) : Prop :=
  (sent_seqs effs = [Some seq] ∧ seq' = seq + 1 ∧ seq < 2 ^ 32)
  ∨ (sent_seqs effs = [] ∧ seq' = seq).

(** The packets among [effs] carry the numbers [first], [first + 1], ...
    in this order, [next] is the number after the last of them, and none
    of the numbers carried reaches 2^32. *)
Definition numbered_from (first next : Z) (effs : list effect) : Prop :=
  let n := Z.of_nat (length (sent_seqs effs)) in
  sent_seqs effs = Some <$> seqZ first n
  ∧ next = first + n
  ∧ (n ≠ 0 → next ≤ 2 ^ 32).




(** [state.write_frame] called for each of [frames] in turn. *)
Definition write_frames (frames : list (list Z)) (w : World) : World :=
  fold_left (λ w encoded, (write_frame encoded w).1) frames w.

(** The file name [start_recording] settles on. *)
Definition recording_name (e : Env) (filename : option string) : string :=
  match filename with
  | Some f => f
  | None => "recording_" +:+ now_stamp e +:+ ".avi"
  end.


(** The number of packets among [effs]. *)
Definition packet_count (effs : list effect) : Z :=
  Z.of_nat (length (sent_seqs effs)).



(** Whether [s] has a ["/"] in it. *)
Fixpoint has_sep (s : string) : bool :=
  match s with
  | EmptyString => false
  | String c r => bool_decide (c = "/"%char) || has_sep r
  end.

(** *** [web_bridge.py]: routing of GET requests *)

Inductive route :=
| ServeInterface
| GetStatus
| ListRecordings
| Download (filename : string)
| NotFound.

(** [path.split('/')[-1]] *)
Definition last_segment (path : string) : string :=
  List.last (PosixPath.split_sep path) "".

(** [BridgeHandler.do_GET], by the handler it hands the request to. *)
Definition do_GET (path : string) : route :=
  if bool_decide (path = "/") then ServeInterface
  else if bool_decide (path = "/status") then GetStatus
  else if bool_decide (path = "/recordings") then ListRecordings
  else if PosixPath.startswith path "/download/"
       then Download (last_segment path)
  else NotFound.

(** *** [main_lightweight.py]: the command listener *)

(** [listen_for_commands] over the datagrams [ds] that arrive while it
    runs, entered with [running_flag[0]] true: the flag at the end and the
    datagrams sent. STOP clears the flag and leaves the loop. *)
Fixpoint lightweight_listen (ds : list (list Z * address))
  : bool * list (list Z * address) :=
  match ds with
  | [] => (true, [])
  | (data, addr) :: rest =>
      match utf8_decode data with
      | None => lightweight_listen rest
      | Some text =>
          let command := str_upper (str_strip text) in
          if bool_decide (command = "STOP") then (false, [])
          else if bool_decide (command = "PING") then
            let '(flag, out) := lightweight_listen rest in
            (flag, (encode "PONG", addr) :: out)
          else lightweight_listen rest
      end
  end.

(** The answers to the PINGs among [ds]. *)
Definition pongs (ds : list (list Z * address)) : list (list Z * address) :=
  omap (λ d, if bool_decide (command_of d.1 = Some "PING")
             then Some (encode "PONG", d.2) else None) ds.


(** *** [web_bridge.py]: [download_recording], on the bytes that arrive
    from the Pi *)

(** [int(s)]; [None] is [ValueError]. *)
Context (py_int : string → option Z).

(** What the bridge answers its own client: status 200 with a
    Content-Length and the chunks written to the body, or an error. *)
Inductive bridge_reply :=
| Sent200 (content_length : Z) (body : list (list Z))
| Error404
| Error500.

(** [while b"\n" not in size_line: size_line += sock.recv(1)]: [stream]
    is what is still to arrive; once it is used up the peer has closed and
    [recv] returns no bytes. [None]: the loop is still going after [fuel]
    rounds. *)
Fixpoint read_size_line (fuel : nat) (size_line stream : list Z)
  : option (list Z * list Z) :=
  match fuel with
  | O => None
  | S k =>
      if bool_decide (10 ∈ size_line) then Some (size_line, stream)
      else match stream with
           | b :: rest => read_size_line k (size_line ++ [b]) rest
           | [] => read_size_line k size_line []
           end
  end.

(** [sock.recv(want)] when [avail] bytes are at hand: some bytes, at most
    [want], as long as the stream has any. *)
Definition recv (want avail : nat) (stream : list Z) : list Z * list Z :=
  let n := Nat.min want (Nat.max 1 avail) in (take n stream, drop n stream).

(** The loop [while bytes_received < file_size], one element of [avails]
    per [recv]: the chunks written. [None]: still going when [avails] is
    used up. *)
Fixpoint receive_body (avails : list nat) (file_size received : Z)
    (stream : list Z) : option (list (list Z)) :=
  if bool_decide (received < file_size) then
    match avails with
    | [] => None
    | avail :: later =>
        let want := Z.to_nat (Z.min 8192 (file_size - received)) in
        let '(chunk, stream') := recv want avail stream in
        match chunk with
        | [] => Some []
        | _ :: _ =>
            (chunk ::.) <$> receive_body later file_size
                              (received + Z.of_nat (length chunk)) stream'
        end
    end
  else Some [].

Fixpoint until_colon (s : string) : string :=
  match s with
  | EmptyString => EmptyString
  | String c r =>
      if bool_decide (c = ":"%char) then EmptyString
      else String c (until_colon r)
  end.

(** [s.split(":")[1]]; [None] is [IndexError]. *)
Definition second_field (s : string) : option string :=
  until_colon <$> after_colon s.

(** [BridgeHandler.download_recording] after the request has been sent. *)
Definition download_recording (fuel : nat) (avails : list nat)
    (stream : list Z) : option bridge_reply :=
  match read_size_line fuel [] stream with
  | None => None
  | Some (size_line, rest) =>
      match utf8_decode size_line with
      | None => Some Error500
      | Some text =>
          let size_str := str_strip text in
          if PosixPath.startswith size_str "SIZE:" then
            match second_field size_str with
            | None => Some Error500
            | Some digits =>
                match py_int digits with
                | None => Some Error500
                | Some file_size =>
                    Sent200 file_size
                      <$> receive_body avails file_size 0 rest
                end
            end
          else Some Error404
      end
  end.

(** The characters of a decimal numeral. *)
Definition is_digit (c : ascii) : bool :=
  bool_decide (48 ≤ byte_of_ascii c ≤ 57).


Fixpoint digits_only (s : string) : bool :=
  match s with
  | EmptyString => true
  | String c r => is_digit c && digits_only r
  end.

(** ** Theorems *)

Section StructFacts.
Import Struct.

Lemma land_255 (x : Z) : Z.land x 255 = x mod 256.
Proof. change 255 with (Z.ones 8). rewrite Z.land_ones by lia. reflexivity. Qed.

Lemma be_step_arith (acc b : Z) :
  0 ≤ b < 256 → be_step acc b = acc * 256 + b.
Proof.
  intros Hb. unfold be_step.
  rewrite Z.shiftl_mul_pow2 by lia. change (2 ^ 8) with 256.
  rewrite <- Z.lxor_lor, <- Z.add_nocarry_lxor; try reflexivity.
  all: apply Z.bits_inj'; intros n Hn; rewrite Z.land_spec, Z.bits_0;
    destruct (Z.lt_ge_cases n 8) as [Hlt | Hge].
  all: try (change 256 with (2 ^ 8); rewrite Z.mul_pow2_bits_low by lia;
            reflexivity).
  all: replace (Z.testbit b n) with false;
    [ apply andb_false_r
    | symmetry; destruct (Z.eq_dec b 0) as [-> | Hnz];
      [ apply Z.bits_0
      | apply Z.bits_above_log2; [lia |];
        apply Z.log2_lt_pow2; [lia |];
        apply Z.lt_le_trans with (2 ^ 8); [change (2 ^ 8) with 256; lia |];
        apply Z.pow_le_mono_r; lia ] ].
Qed.

Lemma be_bytes_length (n : nat) (v : Z) : length (be_bytes n v) = n.
Proof. induction n as [| k IH]; simpl; [reflexivity | now rewrite IH]. Qed.

Lemma be_bytes_range (n : nat) (v : Z) :
  Forall (λ b, 0 ≤ b < 256) (be_bytes n v).
Proof.
  induction n as [| k IH]; simpl; constructor; [| exact IH].
  rewrite land_255. apply Z.mod_pos_bound. lia.
Qed.

Lemma fold_be_bytes (n : nat) (v acc : Z) :
  0 ≤ v →
  fold_left be_step (be_bytes n v) acc
  = acc * 2 ^ (8 * Z.of_nat n) + v mod 2 ^ (8 * Z.of_nat n).
Proof.
  intros Hv. revert acc. induction n as [| k IH]; intros acc.
  - simpl. rewrite Z.mod_1_r. lia.
  - cbn [be_bytes fold_left].
    rewrite be_step_arith
      by (rewrite land_255; apply Z.mod_pos_bound; lia).
    rewrite IH, land_255, Z.shiftr_div_pow2 by lia.
    replace (8 * Z.of_nat (S k)) with (8 * Z.of_nat k + 8) by lia.
    rewrite Z.pow_add_r by lia. change (2 ^ 8) with 256.
    set (p := 2 ^ (8 * Z.of_nat k)).
    assert (Hp : 0 < p) by (apply Z.pow_pos_nonneg; lia).
    rewrite (Z.rem_mul_r v p 256) by lia.
    ring.
Qed.

Lemma be_value_bytes (n : nat) (v : Z) :
  0 ≤ v < 2 ^ (8 * Z.of_nat n) → be_value (be_bytes n v) = v.
Proof.
  intros Hv. unfold be_value. rewrite fold_be_bytes by lia.
  rewrite Z.mod_small by lia. lia.
Qed.

Lemma in_range_spec (bits v : Z) :
  in_range bits v = true ↔ 0 ≤ v < 2 ^ bits.
Proof.
  unfold in_range. rewrite andb_true_iff, !bool_decide_eq_true. tauto.
Qed.

Lemma pack_Some (seq ts : Z) :
  0 ≤ seq < 2 ^ 32 → 0 ≤ ts < 2 ^ 64 →
  pack seq ts = Some (be_bytes 4 seq ++ be_bytes 8 ts).
Proof.
  intros Hs Ht. unfold pack.
  rewrite (proj2 (in_range_spec 32 seq) Hs), (proj2 (in_range_spec 64 ts) Ht).
  reflexivity.
Qed.

Lemma pack_None_seq (seq ts : Z) : 2 ^ 32 ≤ seq → pack seq ts = None.
Proof.
  intros Hs. unfold pack.
  destruct (in_range 32 seq) eqn:E; [| reflexivity].
  apply in_range_spec in E. lia.
Qed.

Lemma pack_inv (seq ts : Z) (hdr : list Z) :
  pack seq ts = Some hdr →
  0 ≤ seq < 2 ^ 32 ∧ 0 ≤ ts < 2 ^ 64 ∧ hdr = be_bytes 4 seq ++ be_bytes 8 ts.
Proof.
  unfold pack. destruct (in_range 32 seq) eqn:E1; [| discriminate].
  destruct (in_range 64 ts) eqn:E2; [| discriminate].
  apply in_range_spec in E1. apply in_range_spec in E2.
  simpl. intros [= <-]. auto.
Qed.

Lemma unpack_be_bytes (seq ts : Z) (payload : list Z) :
  0 ≤ seq < 2 ^ 32 → 0 ≤ ts < 2 ^ 64 →
  unpack (take size (be_bytes 4 seq ++ be_bytes 8 ts ++ payload))
  = Some (seq, ts).
Proof.
  intros Hs Ht. unfold unpack, size.
  rewrite app_assoc.
  rewrite take_app_length'
    by (rewrite length_app, !be_bytes_length; reflexivity).
  rewrite bool_decide_eq_true_2
    by (rewrite length_app, !be_bytes_length; reflexivity).
  rewrite take_app_length' by (rewrite be_bytes_length; reflexivity).
  rewrite drop_app_length' by (rewrite be_bytes_length; reflexivity).
  rewrite !be_value_bytes by (simpl; lia).
  reflexivity.
Qed.

(** C3: for every sequence number below 2^32 and nanosecond timestamp
    below 2^64, packing with the 12-byte big-endian header format and
    unpacking the result recovers exactly the two numbers; the packed
    header has 12 bytes, each a byte value. *)
Theorem header_round_trip (seq timestamp_ns : Z) :
  0 ≤ seq < 2 ^ 32 → 0 ≤ timestamp_ns < 2 ^ 64 →
  ∃ hdr, pack seq timestamp_ns = Some hdr
         ∧ length hdr = 12%nat
         ∧ Forall (λ b, 0 ≤ b < 256) hdr
         ∧ unpack hdr = Some (seq, timestamp_ns).
Proof.
  intros Hs Ht. eexists. split; [apply pack_Some; assumption |].
  split; [rewrite length_app, !be_bytes_length; reflexivity |].
  split; [apply Forall_app; split; apply be_bytes_range |].
  pose proof (unpack_be_bytes seq timestamp_ns [] Hs Ht) as H.
  rewrite app_nil_r in H.
  rewrite take_ge in H
    by (rewrite length_app, !be_bytes_length; unfold size; lia).
  exact H.
Qed.

Lemma header_round_trip_witness :
  ∃ hdr, pack 4294967295 1700000000123456789 = Some hdr
         ∧ length hdr = 12%nat
         ∧ Forall (λ b, 0 ≤ b < 256) hdr
         ∧ unpack hdr = Some (4294967295, 1700000000123456789).
Proof. apply header_round_trip; lia. Defined.

End StructFacts.

(** *** Recording: [start_recording], [stop_recording], [write_frame] *)

Section RecordingFacts.

Lemma start_recording_busy (e : Env) (filename : option string) (w : World) :
  recording (state w) = true →
  start_recording e filename w = (w, (false, "Already recording")).
Proof. intros H. unfold start_recording. rewrite H. reflexivity. Qed.

Lemma stop_recording_idle (clock : float) (w : World) :
  recording (state w) = false →
  stop_recording clock w = (w, (false, "Not recording")).
Proof. intros H. unfold stop_recording. rewrite H. reflexivity. Qed.

Lemma stop_recording_clears (clock : float) (w : World) :
  recording (state w) = true →
  let s' := state (stop_recording clock w).1 in
  recording s' = false ∧ video_writer s' = None
  ∧ recording_file s' = None ∧ recording_start_time s' = None.
Proof.
  intros H. unfold stop_recording. rewrite H. cbn [negb].
  destruct (video_writer (state w)) as [vw |] eqn:E.
  - destruct (VideoWriter_release vw (fs w) (writer_output w)).
    cbn. auto.
  - cbn. rewrite E. auto.
Qed.

(** The disk after a stop: what the release of the writer, if there is
    one, has made of it. *)
Lemma stop_recording_disk (clock : float) (w : World) :
  recording (state w) = true →
  (fs (stop_recording clock w).1, writer_output (stop_recording clock w).1)
  = match video_writer (state w) with
    | Some vw => VideoWriter_release vw (fs w) (writer_output w)
    | None => (fs w, writer_output w)
    end.
Proof.
  intros H. unfold stop_recording. rewrite H. cbn [negb].
  destruct (video_writer (state w)) as [vw |].
  - destruct (VideoWriter_release vw (fs w) (writer_output w)). reflexivity.
  - reflexivity.
Qed.

Lemma stop_recording_count (clock : float) (w : World) :
  frames_recorded (state (stop_recording clock w).1)
  = frames_recorded (state w).
Proof.
  unfold stop_recording.
  destruct (recording (state w)); cbn [negb]; [| reflexivity].
  destruct (video_writer (state w)) as [vw |].
  - destruct (VideoWriter_release vw (fs w) (writer_output w)). reflexivity.
  - reflexivity.
Qed.

Lemma stop_recording_no_writer (clock : float) (w : World) :
  video_writer (state w) = None →
  fs (stop_recording clock w).1 = fs w
  ∧ writer_output (stop_recording clock w).1 = writer_output w.
Proof.
  intros H. unfold stop_recording.
  destruct (recording (state w)); cbn [negb]; [| auto].
  rewrite H. cbn. auto.
Qed.

Lemma stop_recording_not_recording (clock : float) (w : World) :
  recording (state (stop_recording clock w).1) = false.
Proof.
  destruct (recording (state w)) eqn:H.
  - apply stop_recording_clears, H.
  - rewrite stop_recording_idle by exact H. exact H.
Qed.

Lemma stop_recording_keeps (clock : float) (w : World) :
  let w' := (stop_recording clock w).1 in
  frames_sent (state w') = frames_sent (state w)
  ∧ frames_recorded (state w') = frames_recorded (state w)
  ∧ running w' = running w.
Proof.
  unfold stop_recording. destruct (recording (state w)); cbn; [| auto].
  destruct (video_writer (state w)) as [vw |]; [| cbn; auto].
  destruct (VideoWriter_release vw (fs w) (writer_output w)). cbn. auto.
Qed.

Lemma start_recording_keeps (e : Env) (filename : option string) (w : World) :
  let w' := (start_recording e filename w).1 in
  frames_sent (state w') = frames_sent (state w) ∧ running w' = running w.
Proof.
  unfold start_recording, VideoWriter_new.
  destruct (recording (state w)); [auto |].
  destruct (writer_opens e); cbn; auto.
Qed.

Lemma write_frame_keeps (encoded : list Z) (w : World) :
  let w' := (write_frame encoded w).1 in
  frames_sent (state w') = frames_sent (state w)
  ∧ pc_ip (state w') = pc_ip (state w) ∧ running w' = running w
  ∧ recording (state w') = recording (state w).
Proof.
  unfold write_frame. destruct (recording (state w)) eqn:Hrec;
    [| cbn; rewrite Hrec; auto].
  destruct (video_writer (state w)) as [vw |]; [| cbn; rewrite Hrec; auto].
  destruct (VideoWriter_write vw encoded (fs w) (writer_output w)).
  cbn. rewrite Hrec. auto.
Qed.

(** With "the writer is open" read as [isOpened()], the agreement of the
    four fields is kept by each of the three operations. *)
Lemma coherent_start_recording (e : Env) (filename : option string)
    (w : World) :
  coherent (state w) → coherent (state (start_recording e filename w).1).
Proof.
  intros Hc. unfold start_recording.
  destruct (recording (state w)) eqn:Hrec; [exact Hc |].
  unfold VideoWriter_new.
  destruct (writer_opens e) as [header |]; simpl.
  - unfold coherent, writer_open; simpl. repeat split; eauto.
  - destruct Hc as (_ & Hf & Ht).
    unfold coherent, writer_open; simpl. rewrite Hrec in *.
    repeat split; try discriminate.
    + intros (vw & [= <-] & Hopen). discriminate.
    + apply Hf.
    + apply Ht.
Qed.

Lemma coherent_stop_recording (clock : float) (w : World) :
  coherent (state w) → coherent (state (stop_recording clock w).1).
Proof.
  intros Hc. destruct (recording (state w)) eqn:Hrec.
  - destruct (stop_recording_clears clock w Hrec) as (H1 & H2 & H3 & H4).
    unfold coherent, writer_open. rewrite H1, H2, H3, H4.
    repeat split; try discriminate.
    + intros (vw & Hvw & _). discriminate.
    + intros [x Hx]. discriminate.
    + intros [x Hx]. discriminate.
  - rewrite stop_recording_idle by exact Hrec. exact Hc.
Qed.

Lemma coherent_write_frame (encoded : list Z) (w : World) :
  coherent (state w) → coherent (state (write_frame encoded w).1).
Proof.
  intros Hc. unfold write_frame.
  destruct (recording (state w)) eqn:Hrec; [| exact Hc].
  destruct (video_writer (state w)) as [vw |] eqn:Hvw; [| exact Hc].
  destruct (VideoWriter_write vw encoded (fs w) (writer_output w)).
  unfold coherent, writer_open in *. simpl. exact Hc.
Qed.

(** C1: the claim fails on [start_recording] when the writer does not
    open. From the state as created, with the recordings directory in
    place, the call answers "Failed to create video writer" and leaves
    [recording], [recording_file] and [recording_start_time] as they
    were, but [video_writer] now holds the writer that did not open:
    the state has changed, and a writer is set while nothing records. *)
Theorem start_recording_failed_open_keeps_writer :
  let w := Sample.world0 in
  let r := start_recording Sample.env_fails None w in
  r.2 = (false, "Failed to create video writer")
  ∧ recording (state r.1) = false
  ∧ recording_file (state r.1) = None
  ∧ recording_start_time (state r.1) = None
  ∧ video_writer (state w) = None
  ∧ video_writer (state r.1)
    = Some (mkWriter "/home/pi/recordings/recording_20240101_120000.avi"
              false)
  ∧ state r.1 ≠ state w.
Proof.
  cbv zeta. repeat split; try reflexivity.
  intros H. apply (f_equal video_writer) in H. discriminate H.
Qed.

End RecordingFacts.

(** *** The command listener *)

Section CommandFacts.

Lemma command_of_decoded (data : list Z) (command : string) :
  command_of data = Some command ↔
  ∃ text, utf8_decode data = Some text
          ∧ str_upper (str_strip text) = command.
Proof.
  unfold command_of. destruct (utf8_decode data) as [text |]; simpl.
  - split.
    + intros [= <-]. eauto.
    + intros (t & [= <-] & <-). reflexivity.
  - split; [discriminate | intros (t & Ht & _); discriminate].
Qed.

(** C4: when [recording] is already true, [start_recording] gives back
    the very same world (state, disk and running flag, hence every field
    of the shared state) with the failure "Already recording", and a
    RECORD_START datagram leaves the world unchanged and is answered by
    that one message. *)
Theorem record_start_while_recording (e : Env) (filename : option string)
    (data : list Z) (addr : address) (w : World) :
  recording (state w) = true →
  command_of data = Some "RECORD_START" →
  start_recording e filename w = (w, (false, "Already recording"))
  ∧ handle_datagram e data addr w
    = (w, [(encode "Already recording", addr)]).
Proof.
  intros Hrec Hcmd. split; [apply start_recording_busy, Hrec |].
  apply command_of_decoded in Hcmd as (text & Hdec & Hcmd).
  unfold handle_datagram. rewrite Hdec, Hcmd. simpl.
  rewrite start_recording_busy by exact Hrec. reflexivity.
Qed.

(** C5: when [recording] is false, [stop_recording] returns (it is a
    total function: no path of it raises) the very same world with the
    failure "Not recording", and a RECORD_STOP datagram leaves the world
    unchanged and is answered by that one message. *)
Theorem record_stop_while_idle (e : Env) (clock : float) (data : list Z)
    (addr : address) (w : World) :
  recording (state w) = false →
  command_of data = Some "RECORD_STOP" →
  stop_recording clock w = (w, (false, "Not recording"))
  ∧ handle_datagram e data addr w = (w, [(encode "Not recording", addr)]).
Proof.
  intros Hrec Hcmd. split; [apply stop_recording_idle, Hrec |].
  apply command_of_decoded in Hcmd as (text & Hdec & Hcmd).
  unfold handle_datagram. rewrite Hdec, Hcmd. simpl.
  rewrite stop_recording_idle by exact Hrec. reflexivity.
Qed.

Lemma handle_start (e : Env) (data : list Z) (addr : address) (w : World) :
  command_of data = Some "START" →
  (handle_datagram e data addr w).1
  = with_state (λ s, set_pc_ip (Some addr.1) (set_streaming true s)) w.
Proof.
  intros Hcmd. apply command_of_decoded in Hcmd as (text & Hdec & Hcmd).
  unfold handle_datagram. rewrite Hdec, Hcmd. reflexivity.
Qed.

Lemma handle_stop (e : Env) (data : list Z) (addr : address) (w : World) :
  command_of data = Some "STOP" →
  (handle_datagram e data addr w).1 = with_state (set_streaming false) w.
Proof.
  intros Hcmd. apply command_of_decoded in Hcmd as (text & Hdec & Hcmd).
  unfold handle_datagram. rewrite Hdec, Hcmd. reflexivity.
Qed.

(** START and STOP commands touch [streaming] and [pc_ip] only. *)
Lemma handle_all_start_stop (ds : list (Env * list Z * address)) (w : World) :
  Forall start_or_stop ds →
  handle_all ds w
  = with_state
      (λ s, set_pc_ip (last_start_sender ds (pc_ip s))
              (set_streaming (last_streaming ds (streaming s)) s)) w.
Proof.
  intros Hds. revert w.
  induction Hds as [| [[e data] addr] ds Hd _ IH]; intros w.
  - destruct w as [[] ? ? ?]. reflexivity.
  - unfold handle_all in *. cbn [fold_left]. rewrite IH.
    unfold last_start_sender, last_streaming. cbn [fold_left fst snd].
    destruct Hd as [Hd | Hd]; cbn [fst snd] in Hd.
    + rewrite handle_start by exact Hd. rewrite Hd.
      rewrite bool_decide_eq_true_2 by reflexivity.
      destruct w as [[] ? ? ?]. reflexivity.
    + rewrite handle_stop by exact Hd. rewrite Hd.
      rewrite bool_decide_eq_false_2 by discriminate.
      destruct w as [[] ? ? ?]. reflexivity.
Qed.

Lemma last_streaming_snoc ds d init :
  last_streaming (ds ++ [d]) init
  = bool_decide (command_of d.1.2 = Some "START").
Proof. unfold last_streaming. rewrite fold_left_app. reflexivity. Qed.

Lemma last_start_sender_snoc ds d init :
  last_start_sender (ds ++ [d]) init
  = if bool_decide (command_of d.1.2 = Some "START")
    then Some d.2.1 else last_start_sender ds init.
Proof. unfold last_start_sender. rewrite fold_left_app. reflexivity. Qed.

(** C6: after any list of START and STOP datagrams handled in the order
    received, from any world, [streaming] is true if the last one was
    START and false if it was STOP; after a last START the control
    endpoint [pc_ip] is its sender, and in general it is the sender of
    the last START of the list (unchanged if there was none). Nothing
    else in the world changes. *)
Theorem start_stop_last_command_wins (ds : list (Env * list Z * address))
    (e : Env) (data : list Z) (addr : address) (w : World) :
  Forall start_or_stop (ds ++ [(e, data, addr)]) →
  let w' := handle_all (ds ++ [(e, data, addr)]) w in
  (command_of data = Some "START" →
     streaming (state w') = true ∧ pc_ip (state w') = Some addr.1)
  ∧ (command_of data = Some "STOP" →
     streaming (state w') = false
     ∧ pc_ip (state w') = last_start_sender ds (pc_ip (state w)))
  ∧ w' = with_state
           (λ s, set_pc_ip
                   (last_start_sender (ds ++ [(e, data, addr)]) (pc_ip s))
                   (set_streaming
                      (bool_decide (command_of data = Some "START")) s)) w.
Proof.
  intros Hds w'. subst w'.
  rewrite handle_all_start_stop by exact Hds.
  unfold with_state. cbv beta.
  rewrite last_streaming_snoc, last_start_sender_snoc. cbn [fst snd].
  split; [| split].
  - intros ->. rewrite bool_decide_eq_true_2 by reflexivity. auto.
  - intros ->. rewrite bool_decide_eq_false_2 by discriminate. auto.
  - reflexivity.
Qed.

(** C10: a datagram that decodes and whose stripped, uppercased text is
    none of the six commands leaves the world (shared state, disk,
    running flag) unchanged and is answered by exactly one datagram,
    "OK", sent to its sender. *)
Theorem unknown_command_gets_ok (e : Env) (data : list Z) (addr : address)
    (w : World) (command : string) :
  command_of data = Some command →
  command ≠ "START" → command ≠ "STOP" →
  command ≠ "RECORD_START" → command ≠ "RECORD_STOP" →
  command ≠ "PING" → command ≠ "SHUTDOWN" →
  handle_datagram e data addr w = (w, [(encode "OK", addr)]).
Proof.
  intros Hcmd H1 H2 H3 H4 H5 H6.
  apply command_of_decoded in Hcmd as (text & Hdec & Hcmd).
  unfold handle_datagram. rewrite Hdec, Hcmd.
  rewrite !bool_decide_eq_false_2 by assumption. reflexivity.
Qed.

End CommandFacts.

(** *** The streaming loop: sequence numbers *)

Section SequenceFacts.

Lemma sent_seqs_app (a b : list effect) :
  sent_seqs (a ++ b) = sent_seqs a ++ sent_seqs b.
Proof. apply omap_app. Qed.

Lemma sent_seqs_replies (replies : list (list Z * address)) :
  sent_seqs (map (λ r, Replied r.1 r.2) replies) = [].
Proof. induction replies as [| r rs IH]; [reflexivity | exact IH]. Qed.

Lemma sent_seqs_packet (hdr payload : list Z) (dest : address) (seq ts : Z) :
  Struct.pack seq ts = Some hdr →
  sent_seqs [PacketSent (hdr ++ payload) dest] = [Some seq].
Proof.
  intros Hp. apply pack_inv in Hp as (Hs & Ht & ->).
  unfold sent_seqs. cbn [omap list_omap]. rewrite <- app_assoc.
  rewrite unpack_be_bytes by assumption. reflexivity.
Qed.

Lemma stream_finally_effects (clock : float) (w : World) :
  sent_seqs (stream_finally clock w).2 = [].
Proof. unfold stream_finally. destruct (recording (state w)); reflexivity. Qed.

Lemma check_recording_size_effects (clock : float) (w : World) :
  sent_seqs (check_recording_size clock w).2 = [].
Proof.
  unfold check_recording_size.
  repeat match goal with
         | |- context [if ?b then _ else _] => destruct b
         | |- context [match ?o with Some _ => _ | None => _ end] => destruct o
         end; reflexivity.
Qed.

Lemma stream_iteration_pass (e : IterEnv) (seq : Z) (w : World) :
  pass_ok seq (it_seq (stream_iteration e seq w))
    (it_effects (stream_iteration e seq w)).
Proof.
  unfold stream_iteration.
  destruct (streaming (state w)); [| right; split; reflexivity].
  destruct (camera_frame e) as [frame |]; [| right; split; reflexivity].
  cbn [negb].
  destruct (write_frame (avi_bytes frame) w) as [w1 wrote].
  assert (Hw : ∀ x, sent_seqs (if wrote then [FrameWritten x] else []) = [])
    by (intros x; destruct wrote; reflexivity).
  destruct (Struct.pack seq (timestamp_ns e)) as [hdr |] eqn:Hp.
  - destruct (str_truthy (pc_ip (state w1)) && send_ok e).
    + pose proof (check_recording_size_effects (clock e)
        (with_state (set_frames_sent (frames_sent (state w1) + 1)) w1)) as Hc.
      destruct (check_recording_size _ _) as [w3 stopped]. cbn [snd] in Hc.
      left. cbn [it_seq it_effects].
      rewrite !sent_seqs_app, Hw, Hc, (sent_seqs_packet _ _ _ _ _ Hp).
      apply pack_inv in Hp. split; [reflexivity | split; [reflexivity | lia]].
    + pose proof (check_recording_size_effects (clock e) w1) as Hc.
      destruct (check_recording_size _ _) as [w3 stopped]. cbn [snd] in Hc.
      right. cbn [it_seq it_effects].
      rewrite !sent_seqs_app, Hw, Hc. split; reflexivity.
  - pose proof (stream_finally_effects (clock e) w1) as Hf.
    destruct (stream_finally _ _) as [w2 stopped]. cbn [snd] in Hf.
    right. cbn [it_seq it_effects].
    rewrite sent_seqs_app, Hw, Hf. split; reflexivity.
Qed.

Lemma sys_step_pass (sys : System) (ev : event) :
  ∃ new, log (sys_step sys ev) = log sys ++ new
         ∧ pass_ok (seq sys) (seq (sys_step sys ev)) new.
Proof.
  unfold sys_step.
  destruct (streamer_alive sys);
    [| exists []; rewrite app_nil_r; split; [| right; split]; reflexivity].
  cbn [negb]. destruct ev as [e | e data addr].
  - destruct (running (world sys)); cbn [negb].
    + eexists. split; [reflexivity |]. apply stream_iteration_pass.
    + pose proof (stream_finally_effects (clock e) (world sys)) as Hf.
      destruct (stream_finally _ _) as [w effs]. cbn [snd] in Hf.
      eexists. split; [reflexivity |]. right. split; [exact Hf | reflexivity].
  - destruct (running (world sys)); cbn [negb].
    + destruct (handle_datagram e data addr (world sys)) as [w replies].
      eexists. split; [reflexivity |]. right.
      split; [apply sent_seqs_replies | reflexivity].
    + exists []. rewrite app_nil_r. split; [| right; split]; reflexivity.
Qed.

Lemma numbered_from_nil (first : Z) : numbered_from first first [].
Proof. unfold numbered_from. simpl. repeat split; lia. Qed.

(** A pass followed by numbered effects is numbered. *)
Lemma numbered_from_pass (first mid next : Z) (a b : list effect) :
  0 ≤ first → pass_ok first mid a → numbered_from mid next b →
  numbered_from first next (a ++ b).
Proof.
  intros H0 Hpass (Hb & Hnext & Hcap). unfold numbered_from.
  rewrite sent_seqs_app, length_app.
  destruct Hpass as [(Ha & -> & Hlt) | (Ha & ->)]; rewrite Ha.
  - cbn [length app].
    set (n := Z.of_nat (length (sent_seqs b))) in *.
    assert (Hn : 0 ≤ n) by (subst n; lia).
    replace (Z.of_nat (1 + length (sent_seqs b))) with (Z.succ n)
      by (subst n; lia).
    split; [| split].
    + rewrite seqZ_cons by lia. rewrite Z.pred_succ.
      rewrite fmap_cons. f_equal. exact Hb.
    + lia.
    + intros _. destruct (decide (n = 0)) as [-> | Hne]; [lia |].
      apply Hcap, Hne.
  - cbn [length app]. rewrite Nat.add_0_l. auto.
Qed.

Lemma run_numbered (evs : list event) (sys : System) :
  0 ≤ seq sys →
  ∃ new, log (run evs sys) = log sys ++ new
         ∧ numbered_from (seq sys) (seq (run evs sys)) new.
Proof.
  revert sys. induction evs as [| ev evs IH]; intros sys H0.
  - exists []. rewrite app_nil_r. split; [reflexivity |].
    apply numbered_from_nil.
  - destruct (sys_step_pass sys ev) as (a & Hlog & Hpass).
    assert (H1 : 0 ≤ seq (sys_step sys ev))
      by (destruct Hpass as [(_ & -> & _) | (_ & ->)]; lia).
    destruct (IH _ H1) as (b & Hlog' & Hnum).
    exists (a ++ b). unfold run in *. cbn [fold_left].
    rewrite Hlog', Hlog, app_assoc. split; [reflexivity |].
    eapply numbered_from_pass; eassumption.
Qed.

Lemma lightweight_pass (e : IterEnv) (seq : Z) :
  pass_ok seq (Lightweight.p_seq (Lightweight.stream_iteration e seq))
    (Lightweight.p_effects (Lightweight.stream_iteration e seq)).
Proof.
  unfold Lightweight.stream_iteration.
  destruct (camera_frame e) as [frame |]; [| right; split; reflexivity].
  destruct (Struct.pack seq (timestamp_ns e)) as [hdr |] eqn:Hp;
    [| right; split; reflexivity].
  destruct (send_ok e); [| right; split; reflexivity].
  left. cbn [Lightweight.p_seq Lightweight.p_effects].
  rewrite (sent_seqs_packet _ _ _ _ _ Hp).
  apply pack_inv in Hp. split; [reflexivity | split; [reflexivity | lia]].
Qed.

Lemma lightweight_numbered (envs : list IterEnv) (seq : Z) :
  0 ≤ seq →
  numbered_from seq (Lightweight.p_seq (Lightweight.stream_video envs seq))
    (Lightweight.p_effects (Lightweight.stream_video envs seq)).
Proof.
  revert seq. induction envs as [| e envs IH]; intros seq H0.
  - apply numbered_from_nil.
  - cbn [Lightweight.stream_video].
    pose proof (lightweight_pass e seq) as Hpass.
    destruct (Lightweight.p_flow (Lightweight.stream_iteration e seq)).
    + cbn [Lightweight.p_seq Lightweight.p_effects].
      eapply numbered_from_pass; [exact H0 | exact Hpass |].
      apply IH. destruct Hpass as [(_ & -> & _) | (_ & ->)]; lia.
    + rewrite <- (app_nil_r (Lightweight.p_effects _)).
      eapply numbered_from_pass; [exact H0 | exact Hpass |].
      apply numbered_from_nil.
Qed.

(** A pass without a control endpoint, or whose send fails, sends no
    packet and keeps the number. *)
Lemma stream_iteration_no_send (e : IterEnv) (seq : Z) (w : World) :
  str_truthy (pc_ip (state w)) = false ∨ send_ok e = false →
  it_seq (stream_iteration e seq w) = seq
  ∧ sent_seqs (it_effects (stream_iteration e seq w)) = [].
Proof.
  intros Hno. unfold stream_iteration.
  destruct (streaming (state w)); [| split; reflexivity].
  destruct (camera_frame e) as [frame |]; [| split; reflexivity].
  cbn [negb].
  pose proof (write_frame_keeps (avi_bytes frame) w) as (_ & Hip & _).
  destruct (write_frame (avi_bytes frame) w) as [w1 wrote]. cbn [fst] in Hip.
  assert (Hw : ∀ x, sent_seqs (if wrote then [FrameWritten x] else []) = [])
    by (intros x; destruct wrote; reflexivity).
  destruct (Struct.pack seq (timestamp_ns e)) as [hdr |].
  - replace (str_truthy (pc_ip (state w1)) && send_ok e) with false
      by (rewrite Hip; destruct Hno as [-> | ->];
          [reflexivity | rewrite andb_false_r; reflexivity]).
    pose proof (check_recording_size_effects (clock e) w1) as Hc.
    destruct (check_recording_size _ _) as [w3 stopped]. cbn [snd] in Hc.
    cbn [it_seq it_effects]. rewrite !sent_seqs_app, Hw, Hc.
    split; reflexivity.
  - pose proof (stream_finally_effects (clock e) w1) as Hf.
    destruct (stream_finally _ _) as [w2 stopped]. cbn [snd] in Hf.
    cbn [it_seq it_effects]. rewrite sent_seqs_app, Hw, Hf.
    split; reflexivity.
Qed.

(** A pass that streams a frame to a known endpoint through a transport
    that takes it sends one packet, carrying the number, and moves on. *)
Lemma stream_iteration_send (e : IterEnv) (seq : Z) (w : World)
    (frame : Frame) :
  streaming (state w) = true → camera_frame e = Some frame →
  str_truthy (pc_ip (state w)) = true → send_ok e = true →
  0 ≤ seq < 2 ^ 32 → 0 ≤ timestamp_ns e < 2 ^ 64 →
  it_seq (stream_iteration e seq w) = seq + 1
  ∧ sent_seqs (it_effects (stream_iteration e seq w)) = [Some seq].
Proof.
  intros Hstr Hframe Hip Hsend Hs Ht. unfold stream_iteration.
  rewrite Hstr, Hframe. cbn [negb].
  pose proof (write_frame_keeps (avi_bytes frame) w) as (_ & Hip1 & _).
  destruct (write_frame (avi_bytes frame) w) as [w1 wrote]. cbn [fst] in Hip1.
  assert (Hw : ∀ x, sent_seqs (if wrote then [FrameWritten x] else []) = [])
    by (intros x; destruct wrote; reflexivity).
  pose proof (pack_Some seq (timestamp_ns e) Hs Ht) as Hp.
  rewrite Hp, Hip1, Hip, Hsend. cbn [andb].
  pose proof (check_recording_size_effects (clock e)
    (with_state (set_frames_sent (frames_sent (state w1) + 1)) w1)) as Hc.
  destruct (check_recording_size _ _) as [w3 stopped]. cbn [snd] in Hc.
  cbn [it_seq it_effects].
  rewrite !sent_seqs_app, Hw, Hc.
  rewrite (sent_seqs_packet _ (jpeg_bytes frame)
             (default "" (pc_ip (state w)), VIDEO_PORT) _ _ Hp).
  split; reflexivity.
Qed.

Lemma lightweight_no_send (e : IterEnv) (seq : Z) :
  send_ok e = false →
  Lightweight.p_seq (Lightweight.stream_iteration e seq) = seq
  ∧ Lightweight.p_effects (Lightweight.stream_iteration e seq) = [].
Proof.
  intros Hsend. unfold Lightweight.stream_iteration.
  destruct (camera_frame e) as [frame |]; [| split; reflexivity].
  destruct (Struct.pack seq (timestamp_ns e)) as [hdr |];
    [| split; reflexivity].
  rewrite Hsend. split; reflexivity.
Qed.

Lemma lightweight_send (e : IterEnv) (seq : Z) (frame : Frame) :
  camera_frame e = Some frame → send_ok e = true →
  0 ≤ seq < 2 ^ 32 → 0 ≤ timestamp_ns e < 2 ^ 64 →
  Lightweight.p_seq (Lightweight.stream_iteration e seq) = seq + 1
  ∧ sent_seqs (Lightweight.p_effects (Lightweight.stream_iteration e seq))
    = [Some seq].
Proof.
  intros Hframe Hsend Hs Ht. unfold Lightweight.stream_iteration.
  pose proof (pack_Some seq (timestamp_ns e) Hs Ht) as Hp.
  rewrite Hframe, Hp, Hsend. cbn [Lightweight.p_seq Lightweight.p_effects].
  rewrite (sent_seqs_packet _ _ _ _ _ Hp). split; reflexivity.
Qed.

(** C2, as amended: in every run of either streaming loop the packets
    handed to the transport carry consecutive sequence numbers starting
    at the loop's number, and the loop's number has grown by exactly the
    count of those packets. Pass by pass: a pass in which no control
    endpoint is known, or whose send fails, sends no packet and leaves
    the number as it is; a pass that has a frame, an endpoint, a
    transport that takes the packet and numbers that fit the header
    sends one packet carrying the number and moves on to the next. The
    number is never reduced modulo 2^32: every number carried is below
    2^32, so no packet numbered 0 follows the one numbered 2^32 - 1. *)
Theorem seq_counts_packets_without_wrap (evs : list event) (sys : System)
    (envs : list IterEnv) (seq0 : Z) :
  0 ≤ seq sys → 0 ≤ seq0 →
  (∃ new, log (run evs sys) = log sys ++ new
          ∧ numbered_from (seq sys) (seq (run evs sys)) new)
  ∧ numbered_from seq0
      (Lightweight.p_seq (Lightweight.stream_video envs seq0))
      (Lightweight.p_effects (Lightweight.stream_video envs seq0))
  ∧ (∀ e n w,
       str_truthy (pc_ip (state w)) = false ∨ send_ok e = false →
       it_seq (stream_iteration e n w) = n
       ∧ sent_seqs (it_effects (stream_iteration e n w)) = [])
  ∧ (∀ e n,
       send_ok e = false →
       Lightweight.p_seq (Lightweight.stream_iteration e n) = n
       ∧ Lightweight.p_effects (Lightweight.stream_iteration e n) = [])
  ∧ (∀ e n w frame,
       streaming (state w) = true → camera_frame e = Some frame →
       str_truthy (pc_ip (state w)) = true → send_ok e = true →
       0 ≤ n < 2 ^ 32 → 0 ≤ timestamp_ns e < 2 ^ 64 →
       it_seq (stream_iteration e n w) = n + 1
       ∧ sent_seqs (it_effects (stream_iteration e n w)) = [Some n])
  ∧ (∀ e n frame,
       camera_frame e = Some frame → send_ok e = true →
       0 ≤ n < 2 ^ 32 → 0 ≤ timestamp_ns e < 2 ^ 64 →
       Lightweight.p_seq (Lightweight.stream_iteration e n) = n + 1
       ∧ sent_seqs
           (Lightweight.p_effects (Lightweight.stream_iteration e n))
         = [Some n]).
Proof.
  intros H0 H1.
  split; [apply run_numbered, H0 |].
  split; [apply lightweight_numbered, H1 |].
  split; [intros e n w; apply stream_iteration_no_send |].
  split; [intros e n; apply lightweight_no_send |].
  split; [intros e n w frame; apply stream_iteration_send |].
  intros e n frame. apply lightweight_send.
Qed.

End SequenceFacts.

(** *** The streaming loop: the size cap of a recording *)

Section CapFacts.

Lemma lookup_path_insert (disk : filesystem) (p : string) (n : node) :
  lookup_path (<[PosixPath.resolve p := n]> disk) p = Some n.
Proof. unfold lookup_path. apply lookup_insert_eq. Qed.

Lemma writer_call_opened (p : string) (data : list Z) (disk : filesystem)
    (output : list (list Z)) :
  lookup_path disk p = Some (File data) →
  writer_call (mkWriter p true) disk output
  = (<[PosixPath.resolve p := File (data ++ next_put output)]> disk,
     tail output).
Proof.
  intros Hfile. unfold writer_call, append_file. cbn [vw_opened vw_path].
  rewrite Hfile. reflexivity.
Qed.

Lemma write_frame_recording (encoded data : list Z) (p : string) (w : World) :
  recording (state w) = true →
  video_writer (state w) = Some (mkWriter p true) →
  lookup_path (fs w) p = Some (File data) →
  write_frame encoded w
  = (mkWorld (set_frames_recorded (frames_recorded (state w) + 1) (state w))
       (<[PosixPath.resolve p
          := File (data ++ next_put (writer_output w))]> (fs w))
       (running w) (tail (writer_output w)),
     true).
Proof.
  intros Hrec Hvw Hfile. unfold write_frame, VideoWriter_write.
  rewrite Hrec, Hvw, (writer_call_opened p data) by exact Hfile. reflexivity.
Qed.

(** A stop with the opened writer of a file on disk: the release adds to
    that file. *)
Lemma stop_recording_file (clock : float) (w : World) (p : string)
    (data : list Z) :
  recording (state w) = true →
  video_writer (state w) = Some (mkWriter p true) →
  lookup_path (fs w) p = Some (File data) →
  lookup_path (fs (stop_recording clock w).1) p
  = Some (File (data ++ next_put (writer_output w))).
Proof.
  intros Hrec Hvw Hfile.
  pose proof (stop_recording_disk clock w Hrec) as Hdisk.
  rewrite Hvw in Hdisk. unfold VideoWriter_release in Hdisk.
  rewrite (writer_call_opened p data) in Hdisk by exact Hfile.
  injection Hdisk as -> _. apply lookup_path_insert.
Qed.

Lemma write_frame_idle (encoded : list Z) (w : World) :
  recording (state w) = false → write_frame encoded w = (w, false).
Proof. intros Hrec. unfold write_frame. rewrite Hrec. reflexivity. Qed.

Lemma check_recording_size_file (clock : float) (w : World) (f : string)
    (data : list Z) :
  recording (state w) = true →
  recording_file (state w) = Some f → f ≠ "" →
  lookup_path (fs w) (PosixPath.join RECORDING_DIR f) = Some (File data) →
  check_recording_size clock w
  = if bool_decide (cap_bytes < Z.of_nat (length data))
    then ((stop_recording clock w).1, [RecordingStopped])
    else (w, []).
Proof.
  intros Hrec Hf Hne Hfile. unfold check_recording_size, path_exists, getsize.
  rewrite Hrec, Hf. cbn [str_truthy default andb].
  rewrite bool_decide_eq_false_2 by exact Hne. cbn [negb]. unfold id.
  rewrite Hfile. reflexivity.
Qed.

Lemma check_recording_size_idle (clock : float) (w : World) :
  recording (state w) = false → check_recording_size clock w = (w, []).
Proof. intros Hrec. unfold check_recording_size. rewrite Hrec. reflexivity. Qed.

Lemma recording_ok_idle (w : World) :
  recording (state w) = false → recording_ok w.
Proof. intros Hrec H. congruence. Qed.

Lemma recording_ok_stop (clock : float) (w : World) :
  recording_ok (stop_recording clock w).1.
Proof. apply recording_ok_idle, stop_recording_not_recording. Qed.

Lemma recording_ok_start (e : Env) (w : World) :
  env_ok e →
  recording_ok w → recording_ok (start_recording e None w).1.
Proof.
  intros Hev Hok. unfold start_recording.
  destruct (recording (state w)) eqn:Hrec; [exact Hok |].
  unfold VideoWriter_new. unfold env_ok in Hev.
  destruct (writer_opens e) as [header |]; cbn.
  - intros _. eexists _, header. cbn.
    repeat split; [discriminate | apply lookup_path_insert | exact Hev].
  - apply recording_ok_idle. exact Hrec.
Qed.

(** A change of the state that keeps the recording fields, on the same
    disk, keeps [recording_ok]. *)
Lemma recording_ok_same (w w' : World) :
  recording (state w') = recording (state w) →
  recording_file (state w') = recording_file (state w) →
  video_writer (state w') = video_writer (state w) →
  fs w' = fs w →
  recording_ok w → recording_ok w'.
Proof.
  intros H1 H2 H3 H4 Hok Hrec. rewrite H1 in Hrec.
  destruct (Hok Hrec) as (f & data & Hf & Hne & Hvw & Hfile & Hcap).
  exists f, data. rewrite H2, H3, H4. auto.
Qed.

Lemma recording_ok_datagram (e : Env) (data : list Z) (addr : address)
    (w : World) :
  env_ok e →
  recording_ok w → recording_ok (handle_datagram e data addr w).1.
Proof.
  intros Hev Hok. unfold handle_datagram.
  destruct (utf8_decode data) as [text |]; [| exact Hok].
  repeat case_bool_decide; cbn [fst].
  - eapply recording_ok_same; [.. | exact Hok]; reflexivity.
  - eapply recording_ok_same; [.. | exact Hok]; reflexivity.
  - pose proof (recording_ok_start e w Hev Hok) as Hstart.
    destruct (start_recording e None w) as [w1 [ok msg]]. exact Hstart.
  - pose proof (recording_ok_stop (now e) w) as Hstop.
    destruct (stop_recording (now e) w) as [w1 [ok msg]]. exact Hstop.
  - exact Hok.
  - eapply recording_ok_same; [.. | exact Hok]; reflexivity.
  - exact Hok.
Qed.

Lemma recording_ok_finally (clock : float) (w : World) :
  recording_ok (stream_finally clock w).1.
Proof.
  unfold stream_finally. destruct (recording (state w)) eqn:Hrec; cbn [fst].
  - apply recording_ok_stop.
  - apply recording_ok_idle, Hrec.
Qed.

(** A pass that finds the loop streaming and recording and gets a frame:
    the frame goes to the writer, whose call adds [put] to the recording
    file; if the file is then above the cap, the recording is stopped
    within the pass, and the release adds [released]. *)
Lemma stream_iteration_recording (e : IterEnv) (seq : Z) (w : World)
    (frame : Frame) :
  recording_ok w →
  streaming (state w) = true → recording (state w) = true →
  camera_frame e = Some frame →
  let r := stream_iteration e seq w in
  let put := next_put (writer_output w) in
  let released := next_put (tail (writer_output w)) in
  ∃ f data,
    recording_file (state w) = Some f
    ∧ lookup_path (fs w) (PosixPath.join RECORDING_DIR f) = Some (File data)
    ∧ FrameWritten (avi_bytes frame) ∈ it_effects r
    ∧ frames_recorded (state (it_world r)) = frames_recorded (state w) + 1
    ∧ (cap_bytes < Z.of_nat (length (data ++ put)) →
       recording (state (it_world r)) = false
       ∧ video_writer (state (it_world r)) = None
       ∧ RecordingStopped ∈ it_effects r
       ∧ lookup_path (fs (it_world r)) (PosixPath.join RECORDING_DIR f)
         = Some (File (data ++ put ++ released)))
    ∧ (recording (state (it_world r)) = true →
       lookup_path (fs (it_world r)) (PosixPath.join RECORDING_DIR f)
       = Some (File (data ++ put))
       ∧ Z.of_nat (length (data ++ put)) ≤ cap_bytes)
    ∧ recording_ok (it_world r).
Proof.
  intros Hok Hstr Hrec Hframe r put released.
  destruct (Hok Hrec) as (f & data & Hf & Hne & Hvw & Hfile & Hcap).
  exists f, data. split; [exact Hf |]. split; [exact Hfile |].
  subst r. unfold stream_iteration. rewrite Hstr, Hframe. cbn [negb].
  rewrite (write_frame_recording _ data _ w Hrec Hvw Hfile).
  fold put. set (w1 := mkWorld _ _ _ _).
  assert (Hfile1 : lookup_path (fs w1) (PosixPath.join RECORDING_DIR f)
                   = Some (File (data ++ put)))
    by apply lookup_path_insert.
  assert (Hin : ∀ rest, FrameWritten (avi_bytes frame)
                        ∈ [FrameWritten (avi_bytes frame)] ++ rest)
    by (intros rest; apply elem_of_app; left;
        apply list_elem_of_singleton; reflexivity).
  destruct (Struct.pack seq (timestamp_ns e)) as [hdr |].
  - set (sending := str_truthy (pc_ip (state w1)) && send_ok e).
    set (w2 := if sending
               then with_state
                      (set_frames_sent (frames_sent (state w1) + 1)) w1
               else w1).
    assert (Hw2 : recording (state w2) = true
                  ∧ recording_file (state w2) = Some f
                  ∧ video_writer (state w2)
                    = Some (mkWriter (PosixPath.join RECORDING_DIR f) true)
                  ∧ fs w2 = fs w1
                  ∧ writer_output w2 = tail (writer_output w)
                  ∧ frames_recorded (state w2)
                    = frames_recorded (state w) + 1)
      by (subst w2; destruct sending; cbn; repeat split; auto).
    destruct Hw2 as (Hrec2 & Hf2 & Hvw2 & Hfs2 & Hout2 & Hcount2).
    assert (Hfile2 : lookup_path (fs w2) (PosixPath.join RECORDING_DIR f)
                     = Some (File (data ++ put)))
      by (rewrite Hfs2; exact Hfile1).
    pose proof (check_recording_size_file (clock e) w2 f _ Hrec2 Hf2 Hne Hfile2)
      as Hcheck.
    pose proof (stop_recording_clears (clock e) w2 Hrec2) as (Hs1 & Hs2 & _).
    pose proof (stop_recording_file (clock e) w2 _ _ Hrec2 Hvw2 Hfile2)
      as Hs3.
    pose proof (stop_recording_count (clock e) w2) as Hs4.
    rewrite Hout2, <- app_assoc in Hs3. fold released in Hs3.
    replace (if sending then _ else _)
      with (w2, if sending then seq + 1 else seq,
            if sending
            then [PacketSent (hdr ++ jpeg_bytes frame)
                    (default "" (pc_ip (state w1)), VIDEO_PORT)]
            else [])
      by (subst w2; destruct sending; reflexivity).
    rewrite Hcheck.
    case_bool_decide as Hover; cbn [it_world it_effects].
    + split; [apply Hin |]. split; [rewrite Hs4; exact Hcount2 |].
      split; [| split; [rewrite Hs1; discriminate | apply recording_ok_stop]].
      intros _. repeat split; auto.
      rewrite !elem_of_app. right. right.
      apply list_elem_of_singleton. reflexivity.
    + split; [apply Hin |]. split; [exact Hcount2 |].
      split; [intros Hgt; lia |]. split; [intros _; split; [exact Hfile2 | lia] |].
      intros _. exists f, (data ++ put). repeat split; auto. lia.
  - pose proof (stop_recording_clears (clock e) w1 Hrec) as (Hs1 & Hs2 & _).
    pose proof (stop_recording_file (clock e) w1 _ _ Hrec Hvw Hfile1) as Hs3.
    pose proof (stop_recording_count (clock e) w1) as Hs4.
    cbn [writer_output w1] in Hs3. rewrite <- app_assoc in Hs3.
    fold released in Hs3.
    unfold stream_finally.
    replace (recording (state w1)) with true by (symmetry; exact Hrec).
    cbn [it_world it_effects].
    split; [apply Hin |]. split; [rewrite Hs4; reflexivity |].
    split; [| split; [rewrite Hs1; discriminate | apply recording_ok_stop]].
    intros _. repeat split; auto.
    apply elem_of_app. right. apply list_elem_of_singleton. reflexivity.
Qed.

(** A pass that finds the loop not recording writes no frame. *)
Lemma idle_pass_writes_nothing (e : IterEnv) (seq : Z) (w : World)
    (encoded : list Z) :
  recording (state w) = false →
  ¬ (FrameWritten encoded ∈ it_effects (stream_iteration e seq w)).
Proof.
  intros Hrec. unfold stream_iteration.
  destruct (streaming (state w)); cbn [negb it_effects];
    [| apply not_elem_of_nil].
  destruct (camera_frame e) as [frame |]; [| apply not_elem_of_nil].
  rewrite write_frame_idle by exact Hrec.
  destruct (Struct.pack seq (timestamp_ns e)) as [hdr |].
  - destruct (str_truthy (pc_ip (state w)) && send_ok e);
      rewrite check_recording_size_idle by exact Hrec;
      cbn [it_effects app]; intros Hin.
    + apply list_elem_of_singleton in Hin. discriminate Hin.
    + apply elem_of_nil in Hin. exact Hin.
  - unfold stream_finally. rewrite Hrec. cbn [it_effects app].
    apply not_elem_of_nil.
Qed.

Lemma stream_iteration_ok (e : IterEnv) (seq : Z) (w : World) :
  recording_ok w → recording_ok (it_world (stream_iteration e seq w)).
Proof.
  intros Hok.
  destruct (streaming (state w)) eqn:Hstr;
    [| unfold stream_iteration; rewrite Hstr; exact Hok].
  destruct (camera_frame e) as [frame |] eqn:Hframe;
    [| unfold stream_iteration; rewrite Hstr, Hframe; exact Hok].
  destruct (recording (state w)) eqn:Hrec.
  - destruct (stream_iteration_recording e seq w frame Hok Hstr Hrec Hframe)
      as (f & data & H). apply H.
  - unfold stream_iteration. rewrite Hstr, Hframe. cbn [negb].
    rewrite write_frame_idle by exact Hrec.
    destruct (Struct.pack seq (timestamp_ns e)) as [hdr |].
    + destruct (str_truthy (pc_ip (state w)) && send_ok e).
      * rewrite check_recording_size_idle by exact Hrec.
        apply recording_ok_idle. exact Hrec.
      * rewrite check_recording_size_idle by exact Hrec.
        apply recording_ok_idle. exact Hrec.
    + pose proof (recording_ok_finally (clock e) w) as Hfin.
      destruct (stream_finally (clock e) w) as [w2 stopped]. exact Hfin.
Qed.

Lemma sys_step_ok (sys : System) (ev : event) :
  event_ok ev → recording_ok (world sys) →
  recording_ok (world (sys_step sys ev)).
Proof.
  intros Hev Hok. unfold sys_step.
  destruct (streamer_alive sys); [| exact Hok]. cbn [negb].
  destruct ev as [e | e data addr].
  - destruct (running (world sys)); cbn [negb].
    + apply stream_iteration_ok, Hok.
    + pose proof (recording_ok_finally (clock e) (world sys)) as Hfin.
      destruct (stream_finally _ _) as [w effs]. exact Hfin.
  - destruct (running (world sys)); cbn [negb]; [| exact Hok].
    pose proof (recording_ok_datagram e data addr (world sys) Hev Hok) as Hd.
    destruct (handle_datagram _ _ _ _) as [w replies]. exact Hd.
Qed.

Lemma run_ok (evs : list event) (sys : System) :
  Forall event_ok evs → recording_ok (world sys) →
  recording_ok (world (run evs sys)).
Proof.
  intros Hevs. revert sys.
  induction Hevs as [| ev evs Hev _ IH]; intros sys Hok; [exact Hok |].
  unfold run in *. cbn [fold_left]. apply IH, sys_step_ok; assumption.
Qed.

(** C7, as amended: take any run of passes and commands in which an
    opened writer starts its file within the cap. Between passes the file
    of an active recording is within the cap. When a pass then writes a
    frame while recording and the file on disk is above the cap after that
    write, the same pass calls [stop_recording] (the writer is released,
    [recording] is false): that frame is the last one written, no later
    pass writes a frame to the stopped recording. The file ends with what
    the crossing write and the release have put on disk, which is not one
    frame's worth. A recording that goes on after the pass is within the
    cap. *)
Theorem size_cap_stops_recording (evs : list event) (sys0 : System)
    (e : IterEnv) (frame : Frame) :
  recording_ok (world sys0) → Forall event_ok evs →
  let sys := run evs sys0 in
  streaming (state (world sys)) = true →
  recording (state (world sys)) = true →
  camera_frame e = Some frame →
  let r := stream_iteration e (seq sys) (world sys) in
  let put := next_put (writer_output (world sys)) in
  let released := next_put (tail (writer_output (world sys))) in
  ∃ f data,
    recording_file (state (world sys)) = Some f
    ∧ lookup_path (fs (world sys)) (PosixPath.join RECORDING_DIR f)
      = Some (File data)
    ∧ Z.of_nat (length data) ≤ cap_bytes
    ∧ FrameWritten (avi_bytes frame) ∈ it_effects r
    ∧ frames_recorded (state (it_world r))
      = frames_recorded (state (world sys)) + 1
    ∧ (cap_bytes < Z.of_nat (length (data ++ put)) →
       recording (state (it_world r)) = false
       ∧ video_writer (state (it_world r)) = None
       ∧ RecordingStopped ∈ it_effects r
       ∧ lookup_path (fs (it_world r)) (PosixPath.join RECORDING_DIR f)
         = Some (File (data ++ put ++ released))
       ∧ ∀ e' seq' encoded,
           ¬ (FrameWritten encoded
              ∈ it_effects (stream_iteration e' seq' (it_world r))))
    ∧ (recording (state (it_world r)) = true →
       lookup_path (fs (it_world r)) (PosixPath.join RECORDING_DIR f)
       = Some (File (data ++ put))
       ∧ Z.of_nat (length (data ++ put)) ≤ cap_bytes).
Proof.
  intros Hok0 Hevs sys Hstr Hrec Hframe r put released.
  pose proof (run_ok evs sys0 Hevs Hok0) as Hok. fold sys in Hok.
  destruct (stream_iteration_recording e (seq sys) (world sys) frame
              Hok Hstr Hrec Hframe)
    as (f & data & Hf & Hfile & Hw & Hcount & Hstop & Hgoes & _).
  destruct (Hok Hrec) as (f0 & data0 & Hf0 & _ & _ & Hfile0 & Hcap0).
  assert (f0 = f) by congruence. subst f0.
  assert (data0 = data) by congruence. subst data0.
  exists f, data. repeat split; auto; try (apply Hstop; assumption);
    try (apply Hgoes; assumption).
  intros e' seq' encoded. apply idle_pass_writes_nothing.
  apply Hstop. assumption.
Qed.

End CapFacts.

(** *** The status server: downloads *)

Section DownloadFacts.


Lemma read_chunks_concat (k : nat) (data : list Z) :
  (0 < k)%nat → concat (read_chunks k data) = data.
Proof.
  intros Hk. funelim (read_chunks k data).
  - destruct k; [lia |]. destruct rest; [reflexivity | discriminate].
  - cbn [concat]. rewrite H0 by exact Hk. rewrite <- H.
    apply take_drop.
Qed.


(** What a DOWNLOAD request is answered, by what its file name leads to. *)
Lemma download_reply (clock : Z) (request : list Z) (w : World)
    (text rest : string) :
  utf8_decode request = Some text →
  str_strip text = "DOWNLOAD:" +:+ rest →
  handle_status_client clock request w
  = match lookup_path (fs w)
            (PosixPath.join RECORDING_DIR (str_strip rest)) with
    | None => mkConn [encode "ERROR: File not found"] false
    | Some (File content) =>
        mkConn (encode ("SIZE:" +:+ pretty (Z.of_nat (length content))
                          +:+ newline)
                  :: read_chunks CHUNK content) false
    | Some (Dir n) =>
        mkConn [encode ("SIZE:" +:+ pretty n +:+ newline)] true
    end.
Proof.
  intros Hdec Hstrip. unfold handle_status_client.
  rewrite Hdec, Hstrip.
  rewrite !bool_decide_eq_false_2 by discriminate.
  change (PosixPath.startswith ("DOWNLOAD:" +:+ rest) "DOWNLOAD:")
    with (String.prefix "" rest).
  replace (String.prefix "" rest) with true by (destruct rest; reflexivity).
  change (after_colon ("DOWNLOAD:" +:+ rest)) with (Some rest).
  unfold path_exists, getsize, open_rb.
  destruct (lookup_path _ _) as [[content | n] |]; reflexivity.
Qed.


(** C9: the file name of a DOWNLOAD request is joined to the recordings
    directory as it comes. For the names [../../../etc/passwd] and
    [/etc/passwd] the path so made leads to the file [/etc/passwd],
    which is not under the recordings directory, and the handler sends
    that file's size and then chunks that make up its whole content. *)
Theorem download_reaches_outside_recordings (clock : Z) (request : list Z)
    (w : World) (filename : string) (content : list Z) :
  filename = "../../../etc/passwd" ∨ filename = "/etc/passwd" →
  utf8_decode request = Some ("DOWNLOAD:" +:+ filename) →
  str_strip ("DOWNLOAD:" +:+ filename) = "DOWNLOAD:" +:+ filename →
  str_strip filename = filename →
  fs w !! ["etc"; "passwd"] = Some (File content) →
  PosixPath.resolve (PosixPath.join RECORDING_DIR filename)
  = ["etc"; "passwd"]
  ∧ ¬ PosixPath.resolve RECORDING_DIR `prefix_of` ["etc"; "passwd"]
  ∧ handle_status_client clock request w
    = mkConn (encode ("SIZE:" +:+ pretty (Z.of_nat (length content))
                        +:+ newline)
                :: read_chunks CHUNK content) false
  ∧ concat (read_chunks CHUNK content) = content.
Proof.
  intros Hname Hdec Hstrip Hstrip' Hfile.
  assert (Hres : PosixPath.resolve (PosixPath.join RECORDING_DIR filename)
                 = ["etc"; "passwd"])
    by (destruct Hname as [-> | ->]; vm_compute; reflexivity).
  split; [exact Hres |]. split; [| split].
  - intros [k Hk]. vm_compute in Hk. discriminate Hk.
  - rewrite (download_reply _ _ _ _ _ Hdec Hstrip), Hstrip'.
    unfold lookup_path. rewrite Hres, Hfile. reflexivity.
  - apply read_chunks_concat, Nat.ltb_lt. vm_compute. reflexivity.
Qed.

End DownloadFacts.

(** *** More on recording: sessions and reachable states *)

Section SessionFacts.

Lemma coherent_same (s s' : StreamState) :
  recording s' = recording s →
  recording_file s' = recording_file s →
  recording_start_time s' = recording_start_time s →
  video_writer s' = video_writer s →
  coherent s → coherent s'.
Proof.
  intros H1 H2 H3 H4. unfold coherent, writer_open.
  rewrite H1, H2, H3, H4. auto.
Qed.

Lemma coherent_datagram (e : Env) (data : list Z) (addr : address)
    (w : World) :
  coherent (state w) → coherent (state (handle_datagram e data addr w).1).
Proof.
  intros Hc. unfold handle_datagram.
  destruct (utf8_decode data) as [text |]; [| exact Hc].
  repeat case_bool_decide; cbn [fst].
  - eapply coherent_same; [.. | exact Hc]; reflexivity.
  - eapply coherent_same; [.. | exact Hc]; reflexivity.
  - pose proof (coherent_start_recording e None w Hc) as Hs.
    destruct (start_recording e None w) as [w1 [ok msg]]. exact Hs.
  - pose proof (coherent_stop_recording (now e) w Hc) as Hs.
    destruct (stop_recording (now e) w) as [w1 [ok msg]]. exact Hs.
  - exact Hc.
  - exact Hc.
  - exact Hc.
Qed.

Lemma coherent_finally (clock : float) (w : World) :
  coherent (state w) → coherent (state (stream_finally clock w).1).
Proof.
  intros Hc. unfold stream_finally.
  destruct (recording (state w)); cbn [fst];
    [apply coherent_stop_recording, Hc | exact Hc].
Qed.

Lemma coherent_check (clock : float) (w : World) :
  coherent (state w) → coherent (state (check_recording_size clock w).1).
Proof.
  intros Hc. unfold check_recording_size.
  repeat match goal with
         | |- context [if ?b then _ else _] => destruct b
         | |- context [match ?o with Some _ => _ | None => _ end] => destruct o
         end; cbn [fst]; try exact Hc; apply coherent_stop_recording, Hc.
Qed.

Lemma coherent_iteration (e : IterEnv) (seq : Z) (w : World) :
  coherent (state w) → coherent (state (it_world (stream_iteration e seq w))).
Proof.
  intros Hc. unfold stream_iteration.
  destruct (streaming (state w)); [| exact Hc].
  destruct (camera_frame e) as [frame |]; [| exact Hc]. cbn [negb].
  pose proof (coherent_write_frame (avi_bytes frame) w Hc) as Hw.
  destruct (write_frame (avi_bytes frame) w) as [w1 wrote]. cbn [fst] in Hw.
  destruct (Struct.pack seq (timestamp_ns e)) as [hdr |].
  - destruct (str_truthy (pc_ip (state w1)) && send_ok e).
    + pose proof (coherent_check (clock e)
        (with_state (set_frames_sent (frames_sent (state w1) + 1)) w1)) as Hk.
      destruct (check_recording_size _ _) as [w3 stopped]. apply Hk.
      eapply coherent_same; [.. | exact Hw]; reflexivity.
    + pose proof (coherent_check (clock e) w1 Hw) as Hk.
      destruct (check_recording_size _ _) as [w3 stopped]. exact Hk.
  - pose proof (coherent_finally (clock e) w1 Hw) as Hf.
    destruct (stream_finally _ _) as [w2 stopped]. exact Hf.
Qed.

Lemma coherent_sys_step (sys : System) (ev : event) :
  coherent (state (world sys)) → coherent (state (world (sys_step sys ev))).
Proof.
  intros Hc. unfold sys_step.
  destruct (streamer_alive sys); [| exact Hc]. cbn [negb].
  destruct ev as [e | e data addr].
  - destruct (running (world sys)); cbn [negb].
    + apply coherent_iteration, Hc.
    + pose proof (coherent_finally (clock e) (world sys) Hc) as Hf.
      destruct (stream_finally _ _) as [w effs]. exact Hf.
  - destruct (running (world sys)); cbn [negb]; [| exact Hc].
    pose proof (coherent_datagram e data addr (world sys) Hc) as Hd.
    destruct (handle_datagram _ _ _ _) as [w replies]. exact Hd.
Qed.

(** X1: whatever passes of the streaming loop and command datagrams
    follow, in whatever order, a state in which the recording fields agree
    ([recording] true exactly when the writer is an opened one, exactly
    when a file name is set, exactly when a start time is set) is followed
    by states in which they agree. *)
Theorem run_coherent (evs : list event) (sys : System) :
  coherent (state (world sys)) → coherent (state (world (run evs sys))).
Proof.
  revert sys. induction evs as [| ev evs IH]; intros sys Hc; [exact Hc |].
  unfold run in *. cbn [fold_left]. apply IH, coherent_sys_step, Hc.
Qed.

Lemma write_frame_step (encoded : list Z) (vw : VideoWriter) (w : World) :
  recording (state w) = true →
  video_writer (state w) = Some vw →
  let w' := (write_frame encoded w).1 in
  frames_recorded (state w') = frames_recorded (state w) + 1
  ∧ recording (state w') = true
  ∧ video_writer (state w') = Some vw
  ∧ recording_file (state w') = recording_file (state w)
  ∧ recording_start_time (state w') = recording_start_time (state w).
Proof.
  intros Hrec Hvw. unfold write_frame. rewrite Hrec, Hvw.
  destruct (VideoWriter_write vw encoded (fs w) (writer_output w)).
  cbn. auto.
Qed.

Lemma write_frames_recording (frames : list (list Z)) (vw : VideoWriter)
    (w : World) :
  recording (state w) = true →
  video_writer (state w) = Some vw →
  let w' := write_frames frames w in
  frames_recorded (state w')
  = frames_recorded (state w) + Z.of_nat (length frames)
  ∧ recording (state w') = true
  ∧ video_writer (state w') = Some vw
  ∧ recording_file (state w') = recording_file (state w)
  ∧ recording_start_time (state w') = recording_start_time (state w).
Proof.
  revert w. induction frames as [| fr frames IH]; intros w Hrec Hvw.
  - cbv zeta. unfold write_frames. cbn [fold_left length].
    rewrite Z.add_0_r. repeat split; auto.
  - unfold write_frames in *. cbn [fold_left].
    destruct (write_frame_step fr vw w Hrec Hvw) as (S1 & S2 & S3 & S4 & S5).
    destruct (IH (write_frame fr w).1) as (H1 & H2 & H3 & H4 & H5);
      [exact S2 | exact S3 |].
    cbv zeta. rewrite H1, H2, H3, H4, H5, S1, S4, S5.
    cbn [length]. repeat split; auto. lia.
Qed.

(** X2: a recording session. From a state that is not recording, a
    [start_recording] whose writer opens reports the file name; after any
    number of [write_frame] calls the recording is still on and
    [frames_recorded] is the number of calls; [stop_recording] then
    reports that name, the integer part of the seconds elapsed since the
    start (a finite number; 0 if the start was read as 0.0) and that
    count, and clears the four recording fields. What is on disk by then
    is up to the writer. *)
Theorem recording_session (e : Env) (filename : option string)
    (header : list Z) (frames : list (list Z)) (clock : float) (w : World) :
  recording (state w) = false →
  writer_opens e = Some header →
  PrimFloat.is_finite (PrimFloat.sub clock (now e)) = true →
  let name := recording_name e filename in
  let started := start_recording e filename w in
  let w2 := write_frames frames started.1 in
  let stopped := stop_recording clock w2 in
  started.2 = (true, "Recording started: " +:+ name)
  ∧ recording (state w2) = true
  ∧ frames_recorded (state w2) = Z.of_nat (length frames)
  ∧ stopped.2
    = (true,
       "Recording stopped: " +:+ name +:+ " ("
         +:+ pretty (if PrimFloat.is_zero (now e) then 0
                     else int_of_float (PrimFloat.sub clock (now e)))
         +:+ "s, " +:+ pretty (Z.of_nat (length frames)) +:+ " frames)")
  ∧ recording (state stopped.1) = false
  ∧ video_writer (state stopped.1) = None
  ∧ recording_file (state stopped.1) = None
  ∧ recording_start_time (state stopped.1) = None
  ∧ frames_recorded (state stopped.1) = Z.of_nat (length frames).
Proof.
  intros Hrec Hopen _ name started w2 stopped.
  set (path := PosixPath.join RECORDING_DIR name).
  assert (Hstart : started
            = (mkWorld
                 (set_frames_recorded 0
                    (set_recording true (Some name) (Some (now e))
                       (set_video_writer (Some (mkWriter path true))
                          (state w))))
                 (<[PosixPath.resolve path := File header]> (fs w))
                 (running w) (writer_output w),
               (true, "Recording started: " +:+ name))).
  { subst started. unfold start_recording, VideoWriter_new.
    rewrite Hrec, Hopen. reflexivity. }
  split; [rewrite Hstart; reflexivity |].
  destruct (write_frames_recording frames (mkWriter path true) started.1)
    as (H2 & H3 & H4 & H5 & H6); [rewrite Hstart; reflexivity .. |].
  fold w2 in H2, H3, H4, H5, H6.
  rewrite Hstart in H2, H5, H6. cbn in H2, H5, H6. rewrite Z.add_0_l in H2.
  split; [exact H3 |]. split; [exact H2 |].
  pose proof (stop_recording_clears clock w2 H3) as (Hs1 & Hs2 & Hs3 & Hs4).
  pose proof (stop_recording_count clock w2) as Hs5.
  fold stopped in Hs1, Hs2, Hs3, Hs4, Hs5.
  split; [| rewrite Hs5; auto 6].
  subst stopped. unfold stop_recording.
  rewrite H3, H4. cbn [negb].
  destruct (VideoWriter_release _ _ _) as [disk output].
  cbn. rewrite H5, H6, H2. cbn. unfold PrimFloat.is_zero.
  destruct (PrimFloat.eqb (now e) PrimFloat.zero); reflexivity.
Qed.

(** X3: a [start_recording] whose writer does not open does not get in
    the way. Frames offered afterwards are refused and change nothing,
    and the next [start_recording] whose writer opens starts a recording
    with its own writer, in a state whose recording fields agree. *)
Theorem failed_start_then_retry (e1 e2 : Env) (f1 f2 : option string)
    (header encoded : list Z) (w : World) :
  coherent (state w) →
  recording (state w) = false →
  writer_opens e1 = None → writer_opens e2 = Some header →
  let w1 := (start_recording e1 f1 w).1 in
  let retry := start_recording e2 f2 w1 in
  write_frame encoded w1 = (w1, false)
  ∧ fs w1 = fs w
  ∧ retry.2 = (true, "Recording started: " +:+ recording_name e2 f2)
  ∧ recording (state retry.1) = true
  ∧ video_writer (state retry.1)
    = Some (mkWriter
              (PosixPath.join RECORDING_DIR (recording_name e2 f2)) true)
  ∧ frames_recorded (state retry.1) = 0
  ∧ coherent (state retry.1).
Proof.
  intros Hc Hrec H1 H2 w1 retry.
  assert (Hw1 : w1 = mkWorld
            (set_video_writer
               (Some (mkWriter
                        (PosixPath.join RECORDING_DIR (recording_name e1 f1))
                        false)) (state w)) (fs w) (running w)
            (writer_output w)).
  { subst w1. unfold start_recording, VideoWriter_new.
    rewrite Hrec, H1. reflexivity. }
  assert (Hrec1 : recording (state w1) = false)
    by (rewrite Hw1; exact Hrec).
  split; [apply write_frame_idle, Hrec1 |].
  split; [rewrite Hw1; reflexivity |].
  assert (Hc1 : coherent (state w1))
    by (apply coherent_start_recording, Hc).
  pose proof (coherent_start_recording e2 f2 w1 Hc1) as Hc2.
  fold retry in Hc2.
  assert (Hretry : retry
            = (mkWorld
                 (set_frames_recorded 0
                    (set_recording true (Some (recording_name e2 f2))
                       (Some (now e2))
                       (set_video_writer
                          (Some (mkWriter
                                   (PosixPath.join RECORDING_DIR
                                      (recording_name e2 f2)) true))
                          (state w1))))
                 (<[PosixPath.resolve
                      (PosixPath.join RECORDING_DIR (recording_name e2 f2))
                    := File header]> (fs w1))
                 (running w1) (writer_output w1),
               (true, "Recording started: " +:+ recording_name e2 f2))).
  { subst retry. unfold start_recording, VideoWriter_new.
    rewrite Hrec1, H2. reflexivity. }
  rewrite Hretry in Hc2 |- *. cbn. auto.
Qed.

End SessionFacts.

(** *** More on the streaming loop *)

Section LoopFacts.

(** The size check and the [finally] block do nothing or stop the
    recording. *)
Lemma check_recording_size_cases (clock : float) (w : World) :
  check_recording_size clock w = (w, [])
  ∨ check_recording_size clock w
    = ((stop_recording clock w).1, [RecordingStopped]).
Proof.
  unfold check_recording_size.
  repeat match goal with
         | |- context [if ?b then _ else _] => destruct b
         | |- context [match ?o with Some _ => _ | None => _ end] => destruct o
         end; auto.
Qed.

Lemma stream_finally_cases (clock : float) (w : World) :
  (stream_finally clock w = (w, []) ∧ recording (state w) = false)
  ∨ stream_finally clock w = ((stop_recording clock w).1, [RecordingStopped]).
Proof. unfold stream_finally. destruct (recording (state w)); auto. Qed.

Lemma frames_sent_datagram (e : Env) (data : list Z) (addr : address)
    (w : World) :
  frames_sent (state (handle_datagram e data addr w).1)
  = frames_sent (state w).
Proof.
  unfold handle_datagram.
  destruct (utf8_decode data) as [text |]; [| reflexivity].
  repeat case_bool_decide; cbn [fst]; try reflexivity.
  - pose proof (start_recording_keeps e None w) as [Hs _].
    destruct (start_recording e None w) as [w1 [ok msg]]. exact Hs.
  - pose proof (stop_recording_keeps (now e) w) as [Hs _].
    destruct (stop_recording (now e) w) as [w1 [ok msg]]. exact Hs.
Qed.

Lemma stream_iteration_counts (e : IterEnv) (seq : Z) (w : World) :
  let r := stream_iteration e seq w in
  it_seq r = seq + packet_count (it_effects r)
  ∧ frames_sent (state (it_world r))
    = frames_sent (state w) + packet_count (it_effects r).
Proof.
  unfold stream_iteration, packet_count.
  destruct (streaming (state w)); [| cbn; lia].
  destruct (camera_frame e) as [frame |]; [| cbn; lia]. cbn [negb].
  pose proof (write_frame_keeps (avi_bytes frame) w) as (Hfs & _).
  destruct (write_frame (avi_bytes frame) w) as [w1 wrote]. cbn [fst] in Hfs.
  assert (Hw : ∀ x, sent_seqs (if wrote then [FrameWritten x] else []) = [])
    by (intros x; destruct wrote; reflexivity).
  destruct (Struct.pack seq (timestamp_ns e)) as [hdr |] eqn:Hp.
  - destruct (str_truthy (pc_ip (state w1)) && send_ok e).
    + set (w2 := with_state _ w1).
      destruct (check_recording_size_cases (clock e) w2) as [-> | ->];
        cbv zeta; cbn [it_seq it_effects it_world];
        rewrite !sent_seqs_app, Hw, (sent_seqs_packet _ _ _ _ _ Hp);
        [| destruct (stop_recording_keeps (clock e) w2) as (-> & _)];
        subst w2; cbn; lia.
    + destruct (check_recording_size_cases (clock e) w1) as [-> | ->];
        cbv zeta; cbn [it_seq it_effects it_world];
        rewrite !sent_seqs_app, Hw;
        [| destruct (stop_recording_keeps (clock e) w1) as (-> & _)];
        cbn; lia.
  - destruct (stream_finally_cases (clock e) w1) as [[-> _] | ->];
      cbv zeta; cbn [it_seq it_effects it_world];
      rewrite !sent_seqs_app, Hw;
      [| destruct (stop_recording_keeps (clock e) w1) as (-> & _)];
      cbn; lia.
Qed.

Lemma sys_step_counts (sys : System) (ev : event) :
  ∃ new, log (sys_step sys ev) = log sys ++ new
         ∧ seq (sys_step sys ev) = seq sys + packet_count new
         ∧ frames_sent (state (world (sys_step sys ev)))
           = frames_sent (state (world sys)) + packet_count new.
Proof.
  unfold sys_step.
  destruct (streamer_alive sys);
    [| exists []; rewrite app_nil_r; unfold packet_count; cbn;
       repeat split; lia].
  cbn [negb]. destruct ev as [e | e data addr].
  - destruct (running (world sys)); cbn [negb].
    + eexists. split; [reflexivity |]. apply stream_iteration_counts.
    + destruct (stream_finally_cases (clock e) (world sys)) as [[-> _] | ->];
        eexists; (split; [reflexivity |]); cbn [seq world];
        [| destruct (stop_recording_keeps (clock e) (world sys)) as (-> & _)];
        unfold packet_count; cbn; lia.
  - destruct (running (world sys)); cbn [negb].
    + pose proof (frames_sent_datagram e data addr (world sys)) as Hd.
      destruct (handle_datagram e data addr (world sys)) as [w replies].
      eexists. split; [reflexivity |]. cbn [seq world fst] in *.
      unfold packet_count. rewrite sent_seqs_replies, Hd. cbn. lia.
    + exists []. rewrite app_nil_r. unfold packet_count. cbn.
      repeat split; lia.
Qed.

(** X4: over any run of passes and command datagrams, [frames_sent]
    and the loop's sequence number both grow by exactly the number of
    packets handed to the transport during the run. *)
Theorem frames_sent_counts_packets (evs : list event) (sys : System) :
  ∃ new, log (run evs sys) = log sys ++ new
         ∧ seq (run evs sys) = seq sys + packet_count new
         ∧ frames_sent (state (world (run evs sys)))
           = frames_sent (state (world sys)) + packet_count new.
Proof.
  revert sys. induction evs as [| ev evs IH]; intros sys.
  - exists []. rewrite app_nil_r. unfold packet_count. cbn.
    repeat split; lia.
  - destruct (sys_step_counts sys ev) as (a & Ha & Hs & Hf).
    destruct (IH (sys_step sys ev)) as (b & Hb & Hs' & Hf').
    exists (a ++ b). unfold run in *. cbn [fold_left].
    rewrite Hb, Ha, app_assoc, Hs', Hf', Hs, Hf.
    unfold packet_count. rewrite sent_seqs_app, length_app.
    repeat split; lia.
Qed.

Lemma stopped_effects_no_packet (clock : float) (w : World) (eff : effect) :
  eff ∈ (check_recording_size clock w).2 ∨ eff ∈ (stream_finally clock w).2 →
  eff = RecordingStopped.
Proof.
  intros [H | H].
  - destruct (check_recording_size_cases clock w) as [Hc | Hc];
      rewrite Hc in H; cbn in H.
    + apply elem_of_nil in H. destruct H.
    + apply list_elem_of_singleton in H. exact H.
  - destruct (stream_finally_cases clock w) as [[Hc _] | Hc];
      rewrite Hc in H; cbn in H.
    + apply elem_of_nil in H. destruct H.
    + apply list_elem_of_singleton in H. exact H.
Qed.

(** X5: a packet leaves a pass only when the loop is streaming, the
    camera gave a frame, a control endpoint is known and the transport
    took the packet. It goes to that endpoint on the video port; its
    first 12 bytes decode to the loop's sequence number and the
    nanosecond clock reading, and the rest is the JPEG of the frame. *)
Theorem sent_packet_layout (e : IterEnv) (seq : Z) (w : World)
    (packet : list Z) (dest : address) :
  PacketSent packet dest ∈ it_effects (stream_iteration e seq w) →
  ∃ frame ip,
    streaming (state w) = true
    ∧ camera_frame e = Some frame
    ∧ send_ok e = true
    ∧ pc_ip (state w) = Some ip ∧ ip ≠ ""
    ∧ dest = (ip, VIDEO_PORT)
    ∧ Struct.unpack (take Struct.size packet) = Some (seq, timestamp_ns e)
    ∧ drop Struct.size packet = jpeg_bytes frame.
Proof.
  unfold stream_iteration.
  destruct (streaming (state w)) eqn:Hstr;
    [| intros H; apply elem_of_nil in H; destruct H].
  destruct (camera_frame e) as [frame |] eqn:Hframe;
    [| intros H; apply elem_of_nil in H; destruct H].
  cbn [negb].
  pose proof (write_frame_keeps (avi_bytes frame) w) as (_ & Hip & _).
  destruct (write_frame (avi_bytes frame) w) as [w1 wrote]. cbn [fst] in Hip.
  assert (Hw : ∀ x, PacketSent packet dest
                    ∉ (if wrote then [FrameWritten x] else []))
    by (intros x H; destruct wrote;
        [apply list_elem_of_singleton in H; discriminate H
        | apply elem_of_nil in H; destruct H]).
  destruct (Struct.pack seq (timestamp_ns e)) as [hdr |] eqn:Hp.
  - destruct (str_truthy (pc_ip (state w1))) eqn:Htruthy;
      destruct (send_ok e) eqn:Hsend; cbn [andb].
    + set (w2 := with_state _ w1).
      pose proof (λ eff H, stopped_effects_no_packet (clock e) w2 eff
                             (or_introl H)) as Hstop.
      destruct (check_recording_size (clock e) w2) as [w3 stopped].
      cbn [snd] in Hstop. cbn [it_effects].
      rewrite !elem_of_app. intros [H | [H | H]].
      * destruct (Hw _ H).
      * apply list_elem_of_singleton in H. injection H as -> ->.
        rewrite Hip in Htruthy |- *.
        destruct (pc_ip (state w)) as [ip |]; [| discriminate Htruthy].
        exists frame, ip. cbn in Htruthy.
        apply negb_true_iff, bool_decide_eq_false in Htruthy.
        apply pack_inv in Hp as (Hs & Ht & ->).
        do 4 (split; [reflexivity |]). split; [exact Htruthy |].
        split; [reflexivity |]. split.
        -- rewrite <- app_assoc. apply unpack_be_bytes; assumption.
        -- rewrite drop_app_length'; [reflexivity |].
           rewrite length_app, !be_bytes_length. reflexivity.
      * apply Hstop in H. discriminate H.
    + pose proof (λ eff H, stopped_effects_no_packet (clock e) w1 eff
                             (or_introl H)) as Hstop.
      destruct (check_recording_size (clock e) w1) as [w3 stopped].
      cbn [snd] in Hstop. cbn [it_effects].
      rewrite !elem_of_app. intros [H | [H | H]].
      * destruct (Hw _ H).
      * apply elem_of_nil in H. destruct H.
      * apply Hstop in H. discriminate H.
    + pose proof (λ eff H, stopped_effects_no_packet (clock e) w1 eff
                             (or_introl H)) as Hstop.
      destruct (check_recording_size (clock e) w1) as [w3 stopped].
      cbn [snd] in Hstop. cbn [it_effects].
      rewrite !elem_of_app. intros [H | [H | H]].
      * destruct (Hw _ H).
      * apply elem_of_nil in H. destruct H.
      * apply Hstop in H. discriminate H.
    + pose proof (λ eff H, stopped_effects_no_packet (clock e) w1 eff
                             (or_introl H)) as Hstop.
      destruct (check_recording_size (clock e) w1) as [w3 stopped].
      cbn [snd] in Hstop. cbn [it_effects].
      rewrite !elem_of_app. intros [H | [H | H]].
      * destruct (Hw _ H).
      * apply elem_of_nil in H. destruct H.
      * apply Hstop in H. discriminate H.
  - pose proof (λ eff H, stopped_effects_no_packet (clock e) w1 eff
                           (or_intror H)) as Hstop.
    destruct (stream_finally (clock e) w1) as [w2 stopped].
    cbn [snd] in Hstop. cbn [it_effects].
    rewrite elem_of_app. intros [H | H].
    + destruct (Hw _ H).
    + apply Hstop in H. discriminate H.
Qed.


(** The size check and the [finally] block keep the count of frames,
    and keep the disk when there is no recording or no writer to release. *)
Lemma check_keeps_disk (clock : float) (w : World) :
  let w' := (check_recording_size clock w).1 in
  frames_recorded (state w') = frames_recorded (state w)
  ∧ (recording (state w) = false ∨ video_writer (state w) = None →
     fs w' = fs w).
Proof.
  destruct (check_recording_size_cases clock w) as [-> | ->]; cbn [fst];
    [auto |].
  split; [apply stop_recording_count |].
  intros [Hrec | Hvw].
  - rewrite stop_recording_idle by exact Hrec. reflexivity.
  - apply stop_recording_no_writer, Hvw.
Qed.

Lemma finally_keeps_disk (clock : float) (w : World) :
  let w' := (stream_finally clock w).1 in
  frames_recorded (state w') = frames_recorded (state w)
  ∧ recording (state w') = false
  ∧ (recording (state w) = false ∨ video_writer (state w) = None →
     fs w' = fs w).
Proof.
  destruct (stream_finally_cases clock w) as [[-> Hrec] | ->]; cbn [fst];
    [auto |].
  split; [apply stop_recording_count |].
  split; [apply stop_recording_not_recording |].
  intros [Hrec | Hvw].
  - rewrite stop_recording_idle by exact Hrec. reflexivity.
  - apply stop_recording_no_writer, Hvw.
Qed.

Lemma stopped_not_written (clock : float) (w : World) (encoded : list Z) :
  (FrameWritten encoded ∉ (check_recording_size clock w).2)
  ∧ (FrameWritten encoded ∉ (stream_finally clock w).2).
Proof.
  split; intros H.
  - apply (λ H, stopped_effects_no_packet clock w _ (or_introl H)) in H.
    discriminate H.
  - apply (λ H, stopped_effects_no_packet clock w _ (or_intror H)) in H.
    discriminate H.
Qed.

(** X6: the disk and [frames_recorded] change in a pass by a written
    frame and by nothing else. A frame is written only when the loop is
    streaming and recording and the camera gave it, and then
    [frames_recorded] has grown by one; a pass that writes no frame
    leaves the disk and [frames_recorded] as they were (so nothing is
    recorded while streaming is off). *)
Theorem pass_writes_one_frame_or_nothing (e : IterEnv) (seq : Z) (w : World) :
  let r := stream_iteration e seq w in
  (∀ encoded, FrameWritten encoded ∈ it_effects r →
     streaming (state w) = true ∧ recording (state w) = true
     ∧ (∃ frame, camera_frame e = Some frame ∧ encoded = avi_bytes frame)
     ∧ frames_recorded (state (it_world r)) = frames_recorded (state w) + 1)
  ∧ ((∀ encoded, ¬ (FrameWritten encoded ∈ it_effects r)) →
     fs (it_world r) = fs w
     ∧ frames_recorded (state (it_world r)) = frames_recorded (state w)).
Proof.
  unfold stream_iteration.
  destruct (streaming (state w)) eqn:Hstr;
    [| cbn; split; [intros x H; apply elem_of_nil in H; destruct H | auto]].
  destruct (camera_frame e) as [frame |] eqn:Hframe;
    [| cbn; split; [intros x H; apply elem_of_nil in H; destruct H | auto]].
  cbn [negb].
  assert (Hwrite :
    (write_frame (avi_bytes frame) w).2 = true
    ∧ recording (state w) = true
    ∧ frames_recorded (state (write_frame (avi_bytes frame) w).1)
      = frames_recorded (state w) + 1
    ∨ write_frame (avi_bytes frame) w = (w, false)
      ∧ (recording (state w) = false ∨ video_writer (state w) = None)).
  { unfold write_frame. destruct (recording (state w)); [| auto].
    destruct (video_writer (state w)) as [vw |]; [| auto].
    destruct (VideoWriter_write vw (avi_bytes frame) (fs w)
                (writer_output w)).
    cbn. auto. }
  destruct (write_frame (avi_bytes frame) w) as [w1 wrote].
  cbn [fst snd] in Hwrite.
  assert (Hrest : ∀ w2 tail,
    (wrote = false → fs w2 = fs w1) →
    frames_recorded (state w2) = frames_recorded (state w1) →
    (∀ x, FrameWritten x ∉ tail) →
    (∀ encoded,
       FrameWritten encoded ∈ (if wrote then [FrameWritten (avi_bytes frame)]
                               else []) ++ tail →
       true = true ∧ recording (state w) = true
       ∧ (∃ frame0, Some frame = Some frame0 ∧ encoded = avi_bytes frame0)
       ∧ frames_recorded (state w2) = frames_recorded (state w) + 1)
    ∧ ((∀ encoded,
          ¬ (FrameWritten encoded
             ∈ (if wrote then [FrameWritten (avi_bytes frame)] else [])
               ++ tail)) →
       fs w2 = fs w ∧ frames_recorded (state w2) = frames_recorded (state w))).
  { intros w2 tail Hfs Hfr Htail. rewrite Hfr.
    destruct Hwrite as [(-> & Hrec & Hone) | [[= -> ->] _]].
    - split.
      + intros x Hx. apply elem_of_app in Hx as [Hx | Hx];
          [| destruct (Htail _ Hx)].
        apply list_elem_of_singleton in Hx. injection Hx as ->.
        repeat split; eauto.
      + intros Hno. exfalso. apply (Hno (avi_bytes frame)).
        apply elem_of_app. left. apply list_elem_of_singleton. reflexivity.
    - split; [| rewrite Hfs by reflexivity; auto].
      intros x Hx. apply elem_of_app in Hx as [Hx | Hx];
        [apply elem_of_nil in Hx; destruct Hx | destruct (Htail _ Hx)]. }
  assert (Hidle : wrote = false →
            w1 = w
            ∧ (recording (state w) = false ∨ video_writer (state w) = None)).
  { intros ->. destruct Hwrite as [(Hw & _) | [[= ->] Hi]];
      [discriminate Hw | auto]. }
  destruct (Struct.pack seq (timestamp_ns e)) as [hdr |].
  - set (sending := str_truthy (pc_ip (state w1)) && send_ok e).
    set (w2 := if sending
               then with_state (set_frames_sent (frames_sent (state w1) + 1)) w1
               else w1).
    replace (if sending then _ else _)
      with (w2, if sending then seq + 1 else seq,
            if sending
            then [PacketSent (hdr ++ jpeg_bytes frame)
                    (default "" (pc_ip (state w1)), VIDEO_PORT)]
            else [])
      by (subst w2; destruct sending; reflexivity).
    assert (Hsame : recording (state w2) = recording (state w1)
                    ∧ video_writer (state w2) = video_writer (state w1)
                    ∧ fs w2 = fs w1
                    ∧ frames_recorded (state w2) = frames_recorded (state w1))
      by (subst w2; destruct sending; cbn; auto).
    destruct Hsame as (Hsame1 & Hsame2 & Hsame3 & Hsame4).
    pose proof (check_keeps_disk (clock e) w2) as (Hk2 & Hk1).
    pose proof (λ x, proj1 (stopped_not_written (clock e) w2 x)) as Hk3.
    destruct (check_recording_size (clock e) w2) as [w3 stopped].
    cbn [fst snd] in Hk1, Hk2, Hk3. cbn [it_effects it_world].
    apply Hrest.
    + intros Hno. destruct (Hidle Hno) as [-> Hi].
      rewrite Hk1, Hsame3; [reflexivity |].
      rewrite Hsame1, Hsame2. exact Hi.
    + rewrite Hk2. exact Hsame4.
    + intros x Hx. apply elem_of_app in Hx as [Hx | Hx];
        [| destruct (Hk3 x Hx)].
      destruct sending;
        [apply list_elem_of_singleton in Hx; discriminate Hx
        | apply elem_of_nil in Hx; destruct Hx].
  - pose proof (finally_keeps_disk (clock e) w1) as (Hk2 & _ & Hk1).
    pose proof (λ x, proj2 (stopped_not_written (clock e) w1 x)) as Hk3.
    destruct (stream_finally (clock e) w1) as [w2 stopped].
    cbn [fst snd] in Hk1, Hk2, Hk3. cbn [it_effects it_world].
    apply Hrest; [| assumption ..].
    intros Hno. destruct (Hidle Hno) as [-> Hi]. apply Hk1, Hi.
Qed.

(** X7: a pass in which the loop is streaming, the camera gives a frame
    and the header cannot be built (the sequence number is not below
    2^32, or the clock reading not below 2^64, or one is negative) ends
    the streaming thread: [pack] raises outside every [try] of the loop
    body. The frame has been offered to the recording before; no packet
    is sent, [seq] and [frames_sent] stay, and the [finally] block stops
    the recording if there is one. *)
Theorem raising_pass (e : IterEnv) (seq : Z) (w : World) (frame : Frame) :
  streaming (state w) = true →
  camera_frame e = Some frame →
  ¬ (0 ≤ seq < 2 ^ 32 ∧ 0 ≤ timestamp_ns e < 2 ^ 64) →
  let r := stream_iteration e seq w in
  it_flow r = Raise
  ∧ recording (state (it_world r)) = false
  ∧ it_seq r = seq
  ∧ packet_count (it_effects r) = 0
  ∧ frames_sent (state (it_world r)) = frames_sent (state w)
  ∧ (recording (state w) = true → RecordingStopped ∈ it_effects r).
Proof.
  intros Hstr Hframe Hrange. unfold stream_iteration.
  rewrite Hstr, Hframe. cbn [negb].
  pose proof (write_frame_keeps (avi_bytes frame) w) as (Hsent & _ & _ & Hrec).
  destruct (write_frame (avi_bytes frame) w) as [w1 wrote].
  cbn [fst] in Hsent, Hrec.
  assert (Hw : ∀ x, sent_seqs (if wrote then [FrameWritten x] else []) = [])
    by (intros x; destruct wrote; reflexivity).
  destruct (Struct.pack seq (timestamp_ns e)) as [hdr |] eqn:Hp.
  { apply pack_inv in Hp as (Hs & Ht & _).
    exfalso. apply Hrange. split; assumption. }
  pose proof (stream_finally_effects (clock e) w1) as Hf.
  destruct (stream_finally_cases (clock e) w1) as [[Hc Hidle] | Hc];
    rewrite Hc in Hf |- *; cbn [fst snd] in Hf;
    cbn [it_flow it_world it_seq it_effects].
  - split; [reflexivity |]. split; [exact Hidle |]. split; [reflexivity |].
    split; [unfold packet_count; rewrite sent_seqs_app, Hw; reflexivity |].
    split; [exact Hsent | congruence].
  - destruct (stop_recording_keeps (clock e) w1) as (Hk & _).
    split; [reflexivity |].
    split; [apply stop_recording_not_recording |]. split; [reflexivity |].
    split; [unfold packet_count; rewrite sent_seqs_app, Hw; reflexivity |].
    split; [rewrite Hk; exact Hsent |].
    intros _. apply elem_of_app. right.
    apply list_elem_of_singleton. reflexivity.
Qed.




End LoopFacts.

(** *** More on the command listeners *)

Section ListenerFacts.

(** X9: a datagram that does not decode is dropped: nothing changes and
    nothing is sent. One that decodes is answered by exactly one
    datagram, sent to its sender. The disk is the same afterwards unless
    the command is RECORD_START (a file is created) or it is RECORD_STOP
    while recording (the writer is released), and the running flag is the
    same unless the command is SHUTDOWN. *)
Theorem datagram_reply_discipline (e : Env) (data : list Z) (addr : address)
    (w : World) :
  let r := handle_datagram e data addr w in
  (utf8_decode data = None → r = (w, []))
  ∧ (is_Some (utf8_decode data) → ∃ payload, r.2 = [(payload, addr)])
  ∧ (command_of data ≠ Some "RECORD_START" →
     (command_of data = Some "RECORD_STOP" → recording (state w) = false) →
     fs r.1 = fs w)
  ∧ (command_of data ≠ Some "SHUTDOWN" → running r.1 = running w).
Proof.
  unfold handle_datagram, command_of.
  destruct (utf8_decode data) as [text |]; cbn [fmap option_fmap option_map].
  2: { repeat split; auto. intros [x Hx]. discriminate Hx. }
  split; [discriminate |].
  repeat case_bool_decide; cbn [fst snd];
    try (split; [intros _; eexists; reflexivity |];
         split; intros; reflexivity).
  - pose proof (start_recording_keeps e None w) as (_ & Hrun).
    destruct (start_recording e None w) as [w1 [ok msg]]. cbn [fst snd] in *.
    split; [intros _; eexists; reflexivity |].
    split; [intros Hn; congruence | intros _; exact Hrun].
  - pose proof (stop_recording_keeps (now e) w) as (_ & _ & Hrun).
    pose proof (stop_recording_idle (now e) w) as Hidle.
    destruct (stop_recording (now e) w) as [w1 [ok msg]]. cbn [fst snd] in *.
    split; [intros _; eexists; reflexivity |].
    split; [| intros _; assumption].
    intros _ Hrec.
    assert (Hr : recording (state w) = false) by (apply Hrec; congruence).
    apply Hidle in Hr. injection Hr as -> _ _. reflexivity.
  - split; [intros _; eexists; reflexivity |].
    split; [intros; reflexivity | intros Hn; congruence].
Qed.

Lemma lightweight_listen_no_stop (ds : list (list Z * address)) :
  Forall (λ d, command_of d.1 ≠ Some "STOP") ds →
  lightweight_listen ds = (true, pongs ds).
Proof.
  intros Hds. induction Hds as [| [data addr] ds Hd _ IH]; [reflexivity |].
  cbn [lightweight_listen pongs omap list_omap fst snd] in *.
  unfold command_of in *. fold (pongs ds).
  destruct (utf8_decode data) as [text |];
    cbn [fmap option_fmap option_map] in *.
  - rewrite bool_decide_eq_false_2 by congruence.
    rewrite IH. case_bool_decide as Hp.
    + rewrite bool_decide_eq_true_2 by congruence. reflexivity.
    + rewrite bool_decide_eq_false_2 by congruence. reflexivity.
  - rewrite bool_decide_eq_false_2 by discriminate. exact IH.
Qed.

Lemma lightweight_listen_app_stop (pre : list (list Z * address))
    (d : list Z * address) (post : list (list Z * address)) :
  Forall (λ d, command_of d.1 ≠ Some "STOP") pre →
  command_of d.1 = Some "STOP" →
  lightweight_listen (pre ++ d :: post) = (false, pongs pre).
Proof.
  intros Hpre Hstop. induction Hpre as [| [data addr] pre Hd _ IH].
  - destruct d as [data addr]. cbn [app lightweight_listen fst] in *.
    apply command_of_decoded in Hstop as (text & -> & ->).
    rewrite bool_decide_eq_true_2 by reflexivity. reflexivity.
  - cbn [app lightweight_listen pongs omap list_omap fst snd] in *.
    unfold command_of in Hd |- *. fold (pongs pre).
    destruct (utf8_decode data) as [text |];
      cbn [fmap option_fmap option_map] in *.
    + rewrite bool_decide_eq_false_2 by congruence.
      rewrite IH. case_bool_decide as Hp.
      * rewrite bool_decide_eq_true_2 by congruence. reflexivity.
      * rewrite bool_decide_eq_false_2 by congruence. reflexivity.
    + rewrite bool_decide_eq_false_2 by discriminate. exact IH.
Qed.

(** X10: the lightweight listener answers PING, and only PING, with
    PONG to the sender. Without a STOP among the datagrams it is still
    running after them, having answered every PING; the first STOP
    clears the running flag and ends the loop without an answer, so the
    PINGs before it are answered and nothing after it is. *)
Theorem lightweight_listener_replies (pre : list (list Z * address))
    (d : list Z * address) (post : list (list Z * address)) :
  Forall (λ d, command_of d.1 ≠ Some "STOP") pre →
  command_of d.1 = Some "STOP" →
  lightweight_listen pre = (true, pongs pre)
  ∧ lightweight_listen (pre ++ d :: post) = (false, pongs pre).
Proof.
  intros Hpre Hstop. split.
  - apply lightweight_listen_no_stop, Hpre.
  - apply lightweight_listen_app_stop; assumption.
Qed.

End ListenerFacts.

(** *** Paths: what a name without ["/"] leads to *)

Section PathFacts.
Import PosixPath.

Lemma split_sep_no_sep (s : string) : has_sep s = false → split_sep s = [s].
Proof.
  induction s as [| c r IH]; [reflexivity |]. cbn [has_sep split_sep].
  intros H. apply orb_false_iff in H as [Hc Hr].
  rewrite Hc, (IH Hr). reflexivity.
Qed.

Lemma split_sep_nonempty (s : string) : split_sep s ≠ [].
Proof.
  destruct s as [| c r]; [discriminate |]. cbn [split_sep].
  destruct (bool_decide (c = "/"%char)); [discriminate |].
  destruct (split_sep r); discriminate.
Qed.

Lemma split_sep_segments (s : string) :
  Forall (λ seg, has_sep seg = false) (split_sep s).
Proof.
  induction s as [| c r IH]; [repeat constructor |]. cbn [split_sep].
  destruct (bool_decide (c = "/"%char)) eqn:Hc.
  - constructor; [reflexivity | exact IH].
  - destruct (split_sep r) as [| h t]; [repeat constructor; cbn; now rewrite Hc |].
    apply Forall_cons_1 in IH as [Hh Ht].
    constructor; [cbn; rewrite Hc, Hh; reflexivity | exact Ht].
Qed.

Lemma split_sep_app (a b : string) :
  split_sep (a +:+ "/" +:+ b) = split_sep a ++ split_sep b.
Proof.
  induction a as [| c r IH].
  - reflexivity.
  - change (String c r +:+ "/" +:+ b) with (String c (r +:+ "/" +:+ b)).
    cbn [split_sep]. rewrite IH.
    destruct (bool_decide (c = "/"%char)); [reflexivity |].
    pose proof (split_sep_nonempty r) as Hne.
    destruct (split_sep r) as [| h t]; [congruence | reflexivity].
Qed.

Lemma has_sep_app (a b : string) :
  has_sep (a +:+ b) = has_sep a || has_sep b.
Proof.
  induction a as [| c r IH]; [reflexivity |].
  change (String c r +:+ b) with (String c (r +:+ b)).
  cbn [has_sep]. rewrite IH. apply orb_assoc.
Qed.

Lemma join_no_sep (f : string) :
  has_sep f = false → join RECORDING_DIR f = RECORDING_DIR +:+ "/" +:+ f.
Proof.
  intros Hf. unfold join, startswith.
  replace (String.prefix "/" f) with false; [reflexivity |].
  destruct f as [| c r]; [reflexivity |].
  cbn [has_sep] in Hf. apply orb_false_iff in Hf as [Hc _].
  apply bool_decide_eq_false in Hc. cbn [String.prefix].
  destruct (ascii_dec "/" c) as [<- |]; [congruence | reflexivity].
Qed.

Lemma resolve_no_sep (f : string) :
  has_sep f = false →
  resolve (join RECORDING_DIR f)
  = if bool_decide (f = "") || bool_decide (f = ".")
    then ["home"; "pi"; "recordings"]
    else if bool_decide (f = "..") then ["home"; "pi"]
    else ["home"; "pi"; "recordings"; f].
Proof.
  intros Hf. rewrite (join_no_sep f Hf). unfold resolve.
  rewrite split_sep_app, fold_left_app, (split_sep_no_sep f Hf).
  change (fold_left walk (split_sep RECORDING_DIR) [])
    with ["recordings"; "pi"; "home"].
  cbn [fold_left]. unfold walk.
  destruct (bool_decide (f = "") || bool_decide (f = ".")); [reflexivity |].
  destruct (bool_decide (f = "..")); reflexivity.
Qed.

(** X11: a file name without ["/"] joined to the recordings directory
    leads to that directory itself (the empty name and [.]), to its
    parent ([..]), or to the entry of that name in the directory, and to
    nothing else. *)
Theorem name_without_sep_stays_near (f : string) :
  has_sep f = false →
  resolve (join RECORDING_DIR f)
  = if bool_decide (f = "") || bool_decide (f = ".")
    then ["home"; "pi"; "recordings"]
    else if bool_decide (f = "..") then ["home"; "pi"]
    else ["home"; "pi"; "recordings"; f].
Proof. exact (resolve_no_sep f). Qed.

(** X12: a recording started by the RECORD_START command (no file name
    given) is the entry [recording_<stamp>.avi] of the recordings
    directory, as long as the formatted time has no ["/"] in it; that is
    where the writer creates its file. *)
Theorem default_recording_in_directory (e : Env) (header : list Z) (w : World) :
  has_sep (now_stamp e) = false →
  recording (state w) = false →
  writer_opens e = Some header →
  let name := "recording_" +:+ now_stamp e +:+ ".avi" in
  let w' := (start_recording e None w).1 in
  recording_file (state w') = Some name
  ∧ resolve (join RECORDING_DIR name) = ["home"; "pi"; "recordings"; name]
  ∧ fs w' = <[ ["home"; "pi"; "recordings"; name] := File header ]> (fs w).
Proof.
  intros Hstamp Hrec Hopen name w'.
  assert (Hname : has_sep name = false).
  { subst name. rewrite !has_sep_app, Hstamp. reflexivity. }
  assert (Hres : resolve (join RECORDING_DIR name)
                 = ["home"; "pi"; "recordings"; name]).
  { rewrite (resolve_no_sep name Hname).
    subst name. reflexivity. }
  subst w'. unfold start_recording, VideoWriter_new.
  rewrite Hrec, Hopen. cbn. fold name. rewrite Hres. auto.
Qed.

Lemma last_segment_no_sep (path : string) :
  has_sep (last_segment path) = false.
Proof.
  unfold last_segment.
  pose proof (split_sep_segments path) as Hall.
  pose proof (split_sep_nonempty path) as Hne.
  induction (split_sep path) as [| seg segs IH]; [congruence |].
  apply Forall_cons_1 in Hall as [Hseg Hsegs].
  destruct segs as [| seg' segs']; [exact Hseg |].
  apply IH; [exact Hsegs | discriminate].
Qed.

(** X13: the web bridge asks the Pi only for names without ["/"]: for a
    GET request that it routes to a download, the file name it passes on
    is the text after the last ["/"] of the request path, and on the Pi
    that name leads to the recordings directory, to its parent, or to an
    entry of the directory. *)
Theorem bridge_download_names (path filename : string) :
  do_GET path = Download filename →
  filename = last_segment path
  ∧ has_sep filename = false
  ∧ (resolve (join RECORDING_DIR filename) = ["home"; "pi"; "recordings"]
     ∨ resolve (join RECORDING_DIR filename) = ["home"; "pi"]
     ∨ resolve (join RECORDING_DIR filename)
       = ["home"; "pi"; "recordings"; filename]).
Proof.
  unfold do_GET. repeat case_bool_decide; try discriminate.
  destruct (startswith path "/download/"); [| discriminate].
  intros [= <-]. split; [reflexivity |].
  pose proof (last_segment_no_sep path) as Hno. split; [exact Hno |].
  rewrite (resolve_no_sep _ Hno).
  destruct (bool_decide (last_segment path = "")
            || bool_decide (last_segment path = ".")); [auto |].
  destruct (bool_decide (last_segment path = "..")); auto.
Qed.

End PathFacts.

(** *** The bridge and the status server: downloads end to end *)

Section BridgeFacts.

Lemma encode_app (a b : string) : encode (a +:+ b) = encode a ++ encode b.
Proof.
  induction a as [| c r IH]; [reflexivity |].
  change (String c r +:+ b) with (String c (r +:+ b)).
  unfold encode in *. cbn [String.list_ascii_of_string map]. rewrite IH.
  reflexivity.
Qed.

Lemma read_size_line_spins (fuel : nat) (size_line stream : list Z) :
  10 ∉ size_line → 10 ∉ stream →
  read_size_line fuel size_line stream = None.
Proof.
  revert size_line stream.
  induction fuel as [| k IH]; intros size_line stream Hl Hs; [reflexivity |].
  cbn [read_size_line]. rewrite bool_decide_eq_false_2 by exact Hl.
  destruct stream as [| b rest]; [apply IH; assumption |].
  apply not_elem_of_cons in Hs as [Hb Hrest].
  apply IH; [| exact Hrest].
  rewrite elem_of_app, list_elem_of_singleton. intros [H | H]; auto.
Qed.

Lemma read_size_line_finds (fuel : nat) (acc line rest : list Z) :
  10 ∉ acc → 10 ∉ line → (length line + 2 ≤ fuel)%nat →
  read_size_line fuel acc (line ++ 10 :: rest)
  = Some (acc ++ line ++ [10], rest).
Proof.
  revert fuel acc. induction line as [| b line IH]; intros fuel acc Ha Hl Hf.
  - destruct fuel as [| [| k]]; cbn [length] in Hf; try lia.
    cbn [read_size_line app]. rewrite bool_decide_eq_false_2 by exact Ha.
    rewrite bool_decide_eq_true_2; [reflexivity |].
    apply elem_of_app. right. apply list_elem_of_singleton. reflexivity.
  - destruct fuel as [| k]; cbn [length] in Hf; [lia |].
    apply not_elem_of_cons in Hl as [Hb Hl].
    cbn [read_size_line app]. rewrite bool_decide_eq_false_2 by exact Ha.
    rewrite IH; [| | exact Hl | lia].
    + rewrite <- !app_assoc. reflexivity.
    + rewrite elem_of_app, list_elem_of_singleton. intros [H | H]; auto.
Qed.

Lemma receive_body_all (avails : list nat) (file_size received : Z)
    (stream : list Z) :
  file_size - received = Z.of_nat (length stream) →
  (length stream ≤ length avails)%nat →
  ∃ chunks, receive_body avails file_size received stream = Some chunks
            ∧ concat chunks = stream
            ∧ Forall (λ c, 0 < Z.of_nat (length c) ≤ 8192) chunks.
Proof.
  revert received stream.
  induction avails as [| avail later IH]; intros received stream Hsize Hlen.
  - destruct stream; [| cbn in Hlen; lia].
    cbn [receive_body]. rewrite bool_decide_eq_false_2 by (cbn in Hsize; lia).
    exists []. auto.
  - cbn [receive_body]. case_bool_decide as Hlt; [| exists []; split; [reflexivity |]].
    + unfold recv.
      set (n := Nat.min (Z.to_nat (Z.min 8192 (file_size - received)))
                  (Nat.max 1 avail)).
      assert (Hn : 1 ≤ Z.of_nat n ≤ 8192) by (subst n; lia).
      destruct stream as [| b stream]; [cbn in Hsize; lia |].
      destruct n as [| n']; [lia |].
      cbn [take drop].
      destruct (IH (received + Z.of_nat (length (b :: take n' stream)))
                  (drop n' stream))
        as (chunks & Hrec & Hcat & Hall).
      * cbn [length] in *. rewrite length_take, length_drop. lia.
      * cbn [length] in Hlen. rewrite length_drop. lia.
      * rewrite Hrec. eexists. split; [reflexivity |]. split.
        -- cbn [concat]. rewrite Hcat. cbn [app]. rewrite take_drop.
           reflexivity.
        -- constructor; [| exact Hall].
           cbn [length]. rewrite length_take. lia.
    + split; [| constructor].
      destruct stream; [reflexivity | cbn [length] in Hsize; lia].
Qed.

Lemma digits_only_app (a b : string) :
  digits_only (a +:+ b) = digits_only a && digits_only b.
Proof.
  induction a as [| c r IH]; [reflexivity |].
  change (String c r +:+ b) with (String c (r +:+ b)).
  cbn [digits_only]. rewrite IH. apply andb_assoc.
Qed.

Lemma pretty_N_char_digit (x : N) : is_digit (pretty_N_char x) = true.
Proof.
  unfold pretty_N_char. repeat case_match; reflexivity.
Qed.

Lemma pretty_N_go_digits (x : N) (s : string) :
  digits_only s = true → digits_only (pretty_N_go x s) = true.
Proof.
  revert s. induction (N.lt_wf_0 x) as [x _ IH]; intros s Hs.
  destruct (decide (x = 0)%N) as [-> | Hx].
  - rewrite pretty_N_go_0. exact Hs.
  - rewrite pretty_N_go_step by lia. apply IH.
    + apply N.div_lt; lia.
    + cbn [digits_only]. rewrite pretty_N_char_digit, Hs. reflexivity.
Qed.

Lemma pretty_size_digits (n : nat) : digits_only (pretty (Z.of_nat n)) = true.
Proof.
  destruct (Z.of_nat n) as [| p | p] eqn:Hn; [reflexivity | | lia].
  unfold pretty, pretty_Z, pretty, pretty_positive, pretty, pretty_N.
  rewrite decide_False by discriminate.
  apply pretty_N_go_digits. reflexivity.
Qed.

Lemma digits_no_byte (s : string) (b : Z) :
  digits_only s = true → ¬ (48 ≤ b ≤ 57) → b ∉ encode s.
Proof.
  intros Hs Hb. induction s as [| c r IH].
  - intros H. apply elem_of_nil in H. destruct H.
  - cbn [digits_only] in Hs. apply andb_true_iff in Hs as [Hc Hr].
    unfold encode. cbn [String.list_ascii_of_string map].
    apply not_elem_of_cons. split; [| apply IH, Hr].
    unfold is_digit in Hc. apply bool_decide_eq_true in Hc. lia.
Qed.

Lemma until_colon_digits (s : string) :
  digits_only s = true → until_colon s = s.
Proof.
  induction s as [| c r IH]; [reflexivity |]. cbn [digits_only until_colon].
  intros H. apply andb_true_iff in H as [Hc Hr].
  rewrite bool_decide_eq_false_2, (IH Hr); [reflexivity |].
  intros ->. discriminate Hc.
Qed.

(** X15: the bridge never gets to its "File not found" answer. When
    the Pi answers a DOWNLOAD for a name that leads to no file, it sends
    its not-found text, which has no newline in it, and closes; the
    bridge's loop that reads the size line one byte at a time until a
    newline has arrived is then still going after any number of rounds. *)
Theorem bridge_spins_on_not_found (clock : Z) (request : list Z) (w : World)
    (rest : string) (fuel : nat) (avails : list nat) :
  utf8_decode request = Some ("DOWNLOAD:" +:+ rest) →
  str_strip ("DOWNLOAD:" +:+ rest) = "DOWNLOAD:" +:+ rest →
  lookup_path (fs w) (PosixPath.join RECORDING_DIR (str_strip rest)) = None →
  let stream := concat (sent (handle_status_client clock request w)) in
  stream = encode "ERROR: File not found"
  ∧ read_size_line fuel [] stream = None
  ∧ download_recording fuel avails stream = None.
Proof.
  intros Hdec Hstrip Hnone stream.
  assert (Hstream : stream = encode "ERROR: File not found").
  { subst stream. rewrite (download_reply _ _ _ _ _ Hdec Hstrip), Hnone.
    reflexivity. }
  assert (Hspin : read_size_line fuel [] stream = None).
  { apply read_size_line_spins.
    - intros H. apply elem_of_nil in H. destruct H.
    - rewrite Hstream. vm_compute. intros H.
      repeat (apply elem_of_cons in H as [H | H]; [discriminate H |]).
      apply elem_of_nil in H. destruct H. }
  split; [exact Hstream |]. split; [exact Hspin |].
  unfold download_recording. rewrite Hspin. reflexivity.
Qed.

(** X16: a download end to end, for a name without ["/"], which is
    what the bridge sends, with the recordings directory in place. When
    the Pi answers the DOWNLOAD request (as received: it may end in a
    newline) for a name that leads to a regular file, the bridge reads
    the size line,
    takes the size from it, and, however the bytes arrive (each [recv]
    returning at least one byte and no more than asked for), writes to
    its own client chunks of at most 8192 bytes that make up exactly the
    file's content, under a Content-Length that is the file's size. *)
Theorem bridge_download_round_trip (clock : Z) (request : list Z) (w : World)
    (text rest : string) (n : Z) (content : list Z) (fuel : nat)
    (avails : list nat) :
  let size := Z.of_nat (length content) in
  let line := "SIZE:" +:+ pretty size in
  utf8_decode request = Some text →
  str_strip text = "DOWNLOAD:" +:+ rest →
  has_sep (str_strip rest) = false →
  lookup_path (fs w) RECORDING_DIR = Some (Dir n) →
  lookup_path (fs w) (PosixPath.join RECORDING_DIR (str_strip rest))
  = Some (File content) →
  utf8_decode (encode (line +:+ newline)) = Some (line +:+ newline) →
  str_strip (line +:+ newline) = line →
  py_int (pretty size) = Some size →
  (length (encode line) + 2 ≤ fuel)%nat →
  (length content ≤ length avails)%nat →
  ∃ body,
    download_recording fuel avails
      (concat (sent (handle_status_client clock request w)))
    = Some (Sent200 size body)
    ∧ concat body = content
    ∧ Forall (λ c, 0 < Z.of_nat (length c) ≤ 8192) body.
Proof.
  intros size line Hdec Hstrip _ _ Hfile Hdec' Hstrip' Hint Hfuel Havail.
  rewrite (download_reply _ _ _ _ _ Hdec Hstrip), Hfile. cbn [sent concat].
  rewrite (read_chunks_concat CHUNK content)
    by (apply Nat.ltb_lt; vm_compute; reflexivity).
  fold size. change ("SIZE:" +:+ pretty size +:+ newline)
    with (line +:+ newline).
  assert (Hdig : digits_only (pretty size) = true)
    by apply pretty_size_digits.
  assert (Hline : 10 ∉ encode line).
  { subst line. rewrite encode_app. rewrite elem_of_app. intros [H | H].
    - vm_compute in H.
      repeat (apply elem_of_cons in H as [H | H]; [discriminate H |]).
      apply elem_of_nil in H. destruct H.
    - revert H. apply digits_no_byte; [exact Hdig | lia]. }
  unfold download_recording.
  rewrite encode_app. change (encode newline) with [10].
  rewrite <- app_assoc. cbn [app].
  rewrite (read_size_line_finds fuel [] (encode line) content);
    [| intros H; apply elem_of_nil in H; destruct H | exact Hline | exact Hfuel].
  cbn [app]. change [10] with (encode newline). rewrite <- encode_app.
  rewrite Hdec', Hstrip'.
  change (PosixPath.startswith line "SIZE:")
    with (String.prefix "" (pretty size)).
  replace (String.prefix "" (pretty size)) with true
    by (destruct (pretty size); reflexivity).
  change (second_field line) with (Some (until_colon (pretty size))).
  rewrite (until_colon_digits _ Hdig), Hint.
  destruct (receive_body_all avails size 0 content) as (body & Hb & Hcat & Hall);
    [subst size; lia | exact Havail |].
  rewrite Hb. exists body. auto.
Qed.

End BridgeFacts.

(** *** The header: from bytes to numbers and back *)

Section HeaderFacts.
Import Struct.

Lemma fold_be_step_acc (bs : list Z) (acc : Z) :
  Forall (λ b, 0 ≤ b < 256) bs →
  fold_left be_step bs acc
  = acc * 2 ^ (8 * Z.of_nat (length bs)) + fold_left be_step bs 0.
Proof.
  intros Hbs. revert acc. induction Hbs as [| b bs Hb _ IH]; intros acc.
  - cbn. lia.
  - cbn [fold_left length]. rewrite (IH (be_step acc b)), (IH (be_step 0 b)).
    rewrite !be_step_arith by exact Hb.
    replace (8 * Z.of_nat (S (length bs)))
      with (8 + 8 * Z.of_nat (length bs)) by lia.
    rewrite Z.pow_add_r by lia. change (2 ^ 8) with 256. ring.
Qed.

Lemma be_value_bound (bs : list Z) :
  Forall (λ b, 0 ≤ b < 256) bs →
  0 ≤ be_value bs < 2 ^ (8 * Z.of_nat (length bs)).
Proof.
  intros Hbs. unfold be_value. induction Hbs as [| b bs Hb Hbs IH].
  - cbn. lia.
  - cbn [fold_left length]. rewrite fold_be_step_acc by exact Hbs.
    rewrite be_step_arith by exact Hb.
    replace (8 * Z.of_nat (S (length bs)))
      with (8 + 8 * Z.of_nat (length bs)) by lia.
    rewrite Z.pow_add_r by lia. change (2 ^ 8) with 256.
    set (p := 2 ^ (8 * Z.of_nat (length bs))) in *. nia.
Qed.

Lemma be_bytes_add_high (k : nat) (m v : Z) :
  be_bytes k (m * 2 ^ (8 * Z.of_nat k) + v) = be_bytes k v.
Proof.
  revert m. induction k as [| k IH]; intros m; [reflexivity |].
  cbn [be_bytes].
  replace (8 * Z.of_nat (S k)) with (8 + 8 * Z.of_nat k) by lia.
  rewrite Z.pow_add_r by lia. change (2 ^ 8) with 256.
  replace (m * (256 * 2 ^ (8 * Z.of_nat k)) + v)
    with ((m * 256) * 2 ^ (8 * Z.of_nat k) + v) by ring.
  rewrite IH. f_equal.
  rewrite !land_255, !Z.shiftr_div_pow2 by lia.
  assert (Hp : 0 < 2 ^ (8 * Z.of_nat k)) by (apply Z.pow_pos_nonneg; lia).
  rewrite Z.div_add_l by lia.
  rewrite Z.add_comm, Z_mod_plus_full. reflexivity.
Qed.

Lemma be_bytes_value (bs : list Z) :
  Forall (λ b, 0 ≤ b < 256) bs → be_bytes (length bs) (be_value bs) = bs.
Proof.
  intros Hbs. induction Hbs as [| b bs Hb Hbs IH]; [reflexivity |].
  pose proof (be_value_bound bs Hbs) as Hr.
  unfold be_value in *. cbn [fold_left length be_bytes].
  rewrite fold_be_step_acc by exact Hbs.
  rewrite be_step_arith by exact Hb. rewrite Z.mul_0_l, Z.add_0_l.
  rewrite be_bytes_add_high, IH. f_equal.
  rewrite land_255, Z.shiftr_div_pow2 by lia.
  assert (Hp : 0 < 2 ^ (8 * Z.of_nat (length bs)))
    by (apply Z.pow_pos_nonneg; lia).
  rewrite Z.div_add_l by lia.
  rewrite (Z.div_small (fold_left be_step bs 0)) by exact Hr.
  rewrite Z.add_0_r. apply Z.mod_small. exact Hb.
Qed.

(** X17: the other way round. Any 12 bytes are the header of exactly
    one pair of numbers: unpacking them gives a sequence number below
    2^32 and a clock reading below 2^64, and packing those gives the
    same 12 bytes again. *)
Theorem unpack_then_pack (buf : list Z) :
  length buf = 12%nat → Forall (λ b, 0 ≤ b < 256) buf →
  ∃ seq timestamp_ns,
    unpack buf = Some (seq, timestamp_ns)
    ∧ 0 ≤ seq < 2 ^ 32 ∧ 0 ≤ timestamp_ns < 2 ^ 64
    ∧ pack seq timestamp_ns = Some buf.
Proof.
  intros Hlen Hbuf. unfold unpack, size.
  rewrite bool_decide_eq_true_2 by exact Hlen.
  exists (be_value (take 4 buf)), (be_value (drop 4 buf)).
  split; [reflexivity |].
  assert (H4 : length (take 4 buf) = 4%nat) by (rewrite length_take; lia).
  assert (H8 : length (drop 4 buf) = 8%nat) by (rewrite length_drop; lia).
  assert (Hb4 : Forall (λ b, 0 ≤ b < 256) (take 4 buf))
    by (apply Forall_take, Hbuf).
  assert (Hb8 : Forall (λ b, 0 ≤ b < 256) (drop 4 buf))
    by (apply Forall_drop, Hbuf).
  pose proof (be_value_bound _ Hb4) as Hs. rewrite H4 in Hs.
  pose proof (be_value_bound _ Hb8) as Ht. rewrite H8 in Ht.
  split; [exact Hs |]. split; [exact Ht |].
  rewrite pack_Some by assumption.
  rewrite <- H4 at 1. rewrite <- H8 at 1.
  rewrite !be_bytes_value by assumption.
  rewrite take_drop. reflexivity.
Qed.

End HeaderFacts.

End Servers.

(** ** The theorems at work on 7-bit text *)

Lemma record_start_while_recording_witness :
  recording (state Sample.recording_world) = true
  ∧ handle_datagram Ascii7.decode Ascii7.strip Ascii7.upper
      Sample.env_opens (encode " record_start ") Sample.viewer
      Sample.recording_world
    = (Sample.recording_world,
       [(encode "Already recording", Sample.viewer)]).
Proof.
  split; [reflexivity |].
  apply (record_start_while_recording Ascii7.decode Ascii7.strip Ascii7.upper
           Sample.env_opens None (encode " record_start ") Sample.viewer
           Sample.recording_world);
    reflexivity.
Defined.

Lemma record_stop_while_idle_witness :
  recording (state Sample.world0) = false
  ∧ stop_recording 2000 Sample.world0
    = (Sample.world0, (false, "Not recording"))
  ∧ handle_datagram Ascii7.decode Ascii7.strip Ascii7.upper
      Sample.env_opens (encode "record_stop") Sample.viewer Sample.world0
    = (Sample.world0, [(encode "Not recording", Sample.viewer)]).
Proof.
  split; [reflexivity |].
  apply (record_stop_while_idle Ascii7.decode Ascii7.strip Ascii7.upper
           Sample.env_opens 2000 (encode "record_stop") Sample.viewer
           Sample.world0);
    reflexivity.
Defined.

Lemma start_stop_last_command_wins_witness :
  let ds := [(Sample.env_opens, encode "start", Sample.other);
             (Sample.env_opens, encode "STOP", Sample.viewer)] in
  let w' := handle_all Ascii7.decode Ascii7.strip Ascii7.upper
              (ds ++ [(Sample.env_opens, encode "Start", Sample.viewer)])
              Sample.recording_world in
  streaming (state w') = true ∧ pc_ip (state w') = Some "100.64.0.2".
Proof.
  apply (start_stop_last_command_wins Ascii7.decode Ascii7.strip Ascii7.upper
           [(Sample.env_opens, encode "start", Sample.other);
            (Sample.env_opens, encode "STOP", Sample.viewer)]
           Sample.env_opens (encode "Start") Sample.viewer
           Sample.recording_world).
  - repeat constructor;
      first [left; reflexivity | right; reflexivity].
  - reflexivity.
Defined.

Lemma unknown_command_gets_ok_witness :
  handle_datagram Ascii7.decode Ascii7.strip Ascii7.upper
    Sample.env_opens (encode "hello") Sample.viewer Sample.recording_world
  = (Sample.recording_world, [(encode "OK", Sample.viewer)]).
Proof.
  apply (unknown_command_gets_ok Ascii7.decode Ascii7.strip Ascii7.upper
           Sample.env_opens (encode "hello") Sample.viewer
           Sample.recording_world "HELLO");
    [reflexivity | discriminate ..].
Defined.

(** C2, the claim as stated fails: with the loop's number at 2^32 - 1, a
    frame at hand, a viewer known and a transport that accepts the packet,
    the pass sends the packet numbered 2^32 - 1 and goes on with 2^32; the
    next pass, in the same conditions, raises while building the header
    and sends nothing, and the streaming thread is over. No packet
    numbered 0 is sent. *)
Lemma seq_does_not_wrap :
  let r1 := stream_iteration Sample.tick (2 ^ 32 - 1) Sample.streaming_world in
  let r2 := stream_iteration Sample.tick (it_seq r1) (it_world r1) in
  let sys := run Ascii7.decode Ascii7.strip Ascii7.upper
               [Tick Sample.tick; Tick Sample.tick; Tick Sample.tick]
               (mkSystem Sample.streaming_world (2 ^ 32 - 1) true []) in
  sent_seqs (it_effects r1) = [Some (2 ^ 32 - 1)]
  ∧ it_seq r1 = 2 ^ 32 ∧ it_flow r1 = Continue
  ∧ it_effects r2 = [] ∧ it_seq r2 = 2 ^ 32 ∧ it_flow r2 = Raise
  ∧ sent_seqs (log sys) = [Some (2 ^ 32 - 1)]
  ∧ (Some 0 ∉ sent_seqs (log sys))
  ∧ streamer_alive sys = false.
Proof.
  cbv zeta. repeat split; try (vm_compute; reflexivity).
  intros H. vm_compute in H.
  apply list_elem_of_singleton in H. discriminate H.
Qed.

Lemma seq_counts_packets_without_wrap_witness :
  (∃ new,
     log (run Ascii7.decode Ascii7.strip Ascii7.upper
            [Datagram Sample.env_opens (encode "start") Sample.viewer;
             Tick Sample.tick; Tick Sample.tick]
            (mkSystem Sample.world0 0 true []))
     = [] ++ new
     ∧ numbered_from 0
         (seq (run Ascii7.decode Ascii7.strip Ascii7.upper
                 [Datagram Sample.env_opens (encode "start") Sample.viewer;
                  Tick Sample.tick; Tick Sample.tick]
                 (mkSystem Sample.world0 0 true [])))
         new)
  ∧ numbered_from 0
      (Lightweight.p_seq
         (Lightweight.stream_video [Sample.tick; Sample.tick] 0))
      (Lightweight.p_effects
         (Lightweight.stream_video [Sample.tick; Sample.tick] 0))
  ∧ (it_seq (stream_iteration Sample.tick_unsent 7 Sample.streaming_world) = 7
     ∧ sent_seqs
         (it_effects
            (stream_iteration Sample.tick_unsent 7 Sample.streaming_world))
       = [])
  ∧ (it_seq (stream_iteration Sample.tick 7 Sample.world0) = 7
     ∧ sent_seqs (it_effects (stream_iteration Sample.tick 7 Sample.world0))
       = [])
  ∧ (it_seq (stream_iteration Sample.tick 7 Sample.streaming_world) = 8
     ∧ sent_seqs
         (it_effects (stream_iteration Sample.tick 7 Sample.streaming_world))
       = [Some 7]).
Proof.
  destruct (seq_counts_packets_without_wrap Ascii7.decode Ascii7.strip
              Ascii7.upper
              [Datagram Sample.env_opens (encode "start") Sample.viewer;
               Tick Sample.tick; Tick Sample.tick]
              (mkSystem Sample.world0 0 true [])
              [Sample.tick; Sample.tick] 0)
    as (Hrun & Hlight & Hno & _ & Hsend & _); [simpl; lia .. |].
  split; [exact Hrun |]. split; [exact Hlight |].
  split; [apply Hno; right; reflexivity |].
  split; [apply Hno; left; reflexivity |].
  apply (Hsend Sample.tick 7 Sample.streaming_world Sample.frame);
    first [reflexivity | simpl; lia].
Defined.

Lemma near_cap_file_length :
  Z.of_nat (length Sample.near_cap_file) = cap_bytes - 100.
Proof.
  unfold Sample.near_cap_file. rewrite length_replicate.
  apply Z2Nat.id. unfold cap_bytes, MAX_RECORDING_SIZE_MB. lia.
Qed.

Lemma block_length : Z.of_nat (length Sample.block) = 262144.
Proof.
  unfold Sample.block. rewrite length_replicate. apply Z2Nat.id. lia.
Qed.

Lemma big_frame_length :
  Z.of_nat (length (avi_bytes Sample.big_frame)) = 20000.
Proof.
  unfold Sample.big_frame. cbn [avi_bytes]. rewrite length_replicate.
  apply Z2Nat.id. lia.
Qed.

Lemma near_cap_within : Z.of_nat (length Sample.near_cap_file) ≤ cap_bytes.
Proof. rewrite near_cap_file_length. lia. Qed.

Lemma near_cap_over :
  cap_bytes < Z.of_nat (length (Sample.near_cap_file ++ Sample.block)).
Proof.
  rewrite length_app, Nat2Z.inj_add, near_cap_file_length, block_length. lia.
Qed.

Lemma recording_at_ok (data : list Z) (output : list (list Z)) :
  Z.of_nat (length data) ≤ cap_bytes →
  recording_ok (Sample.recording_at data output).
Proof.
  intros Hcap _. exists "recording_20240101_120000.avi", data.
  split; [reflexivity |]. split; [discriminate |]. split; [reflexivity |].
  split; [apply lookup_path_insert | exact Hcap].
Qed.

(** A pass on a recording within the cap that the write of the pass takes
    above it. *)
Lemma recording_at_pass (data put released : list Z) (e : IterEnv)
    (frame : Frame) :
  Z.of_nat (length data) ≤ cap_bytes →
  cap_bytes < Z.of_nat (length (data ++ put)) →
  camera_frame e = Some frame →
  let w := Sample.recording_at data [put; released] in
  let r := stream_iteration e 0 w in
  let path := PosixPath.join RECORDING_DIR "recording_20240101_120000.avi" in
  recording (state w) = true
  ∧ lookup_path (fs w) path = Some (File data)
  ∧ FrameWritten (avi_bytes frame) ∈ it_effects r
  ∧ RecordingStopped ∈ it_effects r
  ∧ lookup_path (fs (it_world r)) path
    = Some (File (data ++ put ++ released)).
Proof.
  intros Hcap Hover Hframe w r path.
  assert (Hfile0 : lookup_path (fs w) path = Some (File data))
    by apply lookup_path_insert.
  destruct (stream_iteration_recording e 0 w frame
              (recording_at_ok data [put; released] Hcap)
              eq_refl eq_refl Hframe)
    as (f & data' & Hf & Hfile & Hw & _ & Hstop & _).
  assert (Hname : recording_file (state w)
                  = Some "recording_20240101_120000.avi") by reflexivity.
  rewrite Hname in Hf. injection Hf as <-.
  fold path in Hfile, Hstop. rewrite Hfile0 in Hfile. injection Hfile as <-.
  change (next_put (writer_output w)) with put in Hstop.
  change (next_put (tail (writer_output w))) with released in Hstop.
  destruct (Hstop Hover) as (_ & _ & Hstopped & Hend).
  fold r in Hw. repeat split; assumption.
Qed.

(** C7, the claim as stated fails: a recording within the cap (a hundred
    bytes short of it), a frame of 20000 bytes, and a writer that buffers:
    the write of this pass puts a block of 262144 bytes on disk. The pass
    stops the recording, and the release adds the index; the file ends
    more than one frame above the cap. *)
Theorem recording_overshoots_cap :
  let w := Sample.recording_at Sample.near_cap_file
             [Sample.block; Sample.index] in
  let r := stream_iteration Sample.big_tick 0 w in
  let path := PosixPath.join RECORDING_DIR "recording_20240101_120000.avi" in
  (recording (state w) = true
   ∧ lookup_path (fs w) path = Some (File Sample.near_cap_file)
   ∧ FrameWritten (avi_bytes Sample.big_frame) ∈ it_effects r
   ∧ RecordingStopped ∈ it_effects r
   ∧ lookup_path (fs (it_world r)) path
     = Some (File (Sample.near_cap_file ++ Sample.block ++ Sample.index)))
  ∧ Z.of_nat (length Sample.near_cap_file) ≤ cap_bytes
  ∧ cap_bytes + Z.of_nat (length (avi_bytes Sample.big_frame))
    < Z.of_nat (length (Sample.near_cap_file ++ Sample.block ++ Sample.index)).
Proof.
  split; [| split].
  - exact (recording_at_pass Sample.near_cap_file Sample.block Sample.index
             Sample.big_tick Sample.big_frame
             near_cap_within near_cap_over eq_refl).
  - exact near_cap_within.
  - rewrite !length_app, !Nat2Z.inj_add.
    rewrite near_cap_file_length, block_length, big_frame_length. lia.
Qed.

Lemma size_cap_stops_recording_witness :
  let w := Sample.recording_at Sample.near_cap_file
             [Sample.block; Sample.index] in
  let r := stream_iteration Sample.big_tick 0 w in
  recording (state (it_world r)) = false
  ∧ video_writer (state (it_world r)) = None
  ∧ RecordingStopped ∈ it_effects r
  ∧ lookup_path (fs (it_world r))
      (PosixPath.join RECORDING_DIR "recording_20240101_120000.avi")
    = Some (File (Sample.near_cap_file ++ Sample.block ++ Sample.index))
  ∧ ∀ e' seq' encoded,
      ¬ (FrameWritten encoded
         ∈ it_effects (stream_iteration e' seq' (it_world r))).
Proof.
  pose proof near_cap_within as Hwithin. pose proof near_cap_over as Hover.
  revert Hwithin Hover.
  generalize Sample.near_cap_file, Sample.block, Sample.index.
  intros data put released Hwithin Hover. cbv zeta.
  pose proof (size_cap_stops_recording Ascii7.decode Ascii7.strip
                Ascii7.upper []
                (mkSystem (Sample.recording_at data [put; released])
                   0 true [])
                Sample.big_tick Sample.big_frame
                (recording_at_ok data [put; released] Hwithin)
                (Forall_nil_2 _) eq_refl eq_refl eq_refl) as H.
  cbv zeta in H. unfold run in H. cbn [fold_left world seq] in H.
  destruct H as (f & data' & Hf & Hfile & _ & _ & _ & Hstop & _).
  assert (Hname : recording_file
                    (state (Sample.recording_at data [put; released]))
                  = Some "recording_20240101_120000.avi") by reflexivity.
  rewrite Hname in Hf. injection Hf as <-.
  assert (Hfile0 : lookup_path
                     (fs (Sample.recording_at data [put; released]))
                     (PosixPath.join RECORDING_DIR
                        "recording_20240101_120000.avi")
                   = Some (File data))
    by apply lookup_path_insert.
  rewrite Hfile0 in Hfile. injection Hfile as <-.
  change (next_put (writer_output (Sample.recording_at data [put; released])))
    with put in Hstop.
  change (next_put
            (tail (writer_output (Sample.recording_at data [put; released]))))
    with released in Hstop.
  apply Hstop, Hover.
Defined.

(** C8, the claim fails on a name that leads to a directory: for the
    request [DOWNLOAD:] (an empty name) the path is the recordings
    directory itself, which exists; the handler sends the size line of the
    directory, then fails to open it. Neither the not-found text nor any
    content is sent. *)
Theorem download_of_directory_sends_size_only :
  let reply := handle_status_client Ascii7.decode Ascii7.strip
                 Sample.no_status Sample.no_listing 2000
                 (encode "DOWNLOAD:") Sample.world0 in
  PosixPath.join RECORDING_DIR "" = "/home/pi/recordings/"
  ∧ path_exists (fs Sample.world0) "/home/pi/recordings/" = true
  ∧ open_rb (fs Sample.world0) "/home/pi/recordings/" = None
  ∧ reply = mkConn [encode ("SIZE:4096" +:+ newline)] true
  ∧ reply ≠ mkConn [encode "ERROR: File not found"] false.
Proof.
  cbv zeta. repeat split; try (vm_compute; reflexivity).
  intros H. vm_compute in H. discriminate H.
Qed.

Lemma download_reaches_outside_recordings_witness :
  PosixPath.resolve (PosixPath.join RECORDING_DIR "../../../etc/passwd")
  = ["etc"; "passwd"]
  ∧ ¬ PosixPath.resolve RECORDING_DIR `prefix_of` ["etc"; "passwd"]
  ∧ handle_status_client Ascii7.decode Ascii7.strip
      Sample.no_status Sample.no_listing 2000
      (encode "DOWNLOAD:../../../etc/passwd") Sample.world_with_passwd
    = mkConn (encode ("SIZE:" +:+ pretty (Z.of_nat (length [114; 111; 111; 116]))
                        +:+ newline)
                :: read_chunks CHUNK [114; 111; 111; 116]) false
  ∧ concat (read_chunks CHUNK [114; 111; 111; 116]) = [114; 111; 111; 116].
Proof.
  apply (download_reaches_outside_recordings Ascii7.decode Ascii7.strip
           Sample.no_status Sample.no_listing 2000
           (encode "DOWNLOAD:../../../etc/passwd") Sample.world_with_passwd
           "../../../etc/passwd" [114; 111; 111; 116]).
  - left. reflexivity.
  - reflexivity.
  - reflexivity.
  - reflexivity.
  - reflexivity.
Defined.

(** ** Further theorems at work *)

Lemma run_coherent_witness :
  coherent
    (state (world (run Ascii7.decode Ascii7.strip Ascii7.upper
                     [Datagram Sample.env_fails (encode "record_start")
                        Sample.viewer;
                      Datagram Sample.env_opens (encode "start") Sample.viewer;
                      Tick Sample.tick;
                      Datagram Sample.env_opens (encode "record_start")
                        Sample.viewer;
                      Tick Sample.tick]
                     (mkSystem Sample.world0 0 true [])))).
Proof.
  apply (run_coherent Ascii7.decode Ascii7.strip Ascii7.upper).
  unfold coherent, writer_open. cbn.
  repeat split; try discriminate.
  - intros (vw & H & _). discriminate H.
  - intros [x H]. discriminate H.
  - intros [x H]. discriminate H.
Defined.

Lemma recording_session_witness :
  let e := mkEnv "20240101_120000" 1700000000.5 (Some [82; 73; 70; 70]) in
  let started := start_recording e None Sample.world0 in
  let w2 := write_frames [[1; 2; 3]; [4; 5]] started.1 in
  let stopped := stop_recording 1700000003.25 w2 in
  started.2 = (true, "Recording started: recording_20240101_120000.avi")
  ∧ frames_recorded (state w2) = 2
  ∧ stopped.2
    = (true,
       "Recording stopped: recording_20240101_120000.avi (2s, 2 frames)")
  ∧ recording (state stopped.1) = false.
Proof.
  pose proof (recording_session
                (mkEnv "20240101_120000" 1700000000.5 (Some [82; 73; 70; 70]))
                None [82; 73; 70; 70]
                [[1; 2; 3]; [4; 5]] 1700000003.25 Sample.world0
                eq_refl eq_refl eq_refl) as H.
  cbv zeta in H. destruct H as (H1 & _ & H3 & H4 & H5 & _).
  split; [exact H1 |]. split; [exact H3 |]. split; [exact H4 | exact H5].
Defined.

Lemma failed_start_then_retry_witness :
  let w1 := (start_recording Sample.env_fails None Sample.world0).1 in
  let retry := start_recording Sample.env_opens None w1 in
  write_frame [1; 2; 3] w1 = (w1, false)
  ∧ retry.2 = (true, "Recording started: recording_20240101_120000.avi")
  ∧ recording (state retry.1) = true.
Proof.
  assert (Hc : coherent (state Sample.world0)).
  { unfold coherent, writer_open. cbn. repeat split; try discriminate.
    - intros (vw & H & _). discriminate H.
    - intros [x H]. discriminate H.
    - intros [x H]. discriminate H. }
  pose proof (failed_start_then_retry Sample.env_fails Sample.env_opens
                None None [82; 73; 70; 70] [1; 2; 3] Sample.world0
                Hc eq_refl eq_refl eq_refl) as H.
  cbv zeta in H. destruct H as (H1 & _ & H3 & H4 & _).
  split; [exact H1 |]. split; [exact H3 | exact H4].
Defined.

Lemma sent_packet_layout_witness :
  ∃ frame ip,
    streaming (state Sample.streaming_world) = true
    ∧ camera_frame Sample.tick = Some frame
    ∧ send_ok Sample.tick = true
    ∧ pc_ip (state Sample.streaming_world) = Some ip ∧ ip ≠ ""
    ∧ ("100.64.0.2", 5001) = (ip, VIDEO_PORT)
    ∧ Struct.unpack
        (take Struct.size
           (Struct.be_bytes 4 7 ++ Struct.be_bytes 8 1700000000000000000
              ++ [255; 216; 255; 217]))
      = Some (7, timestamp_ns Sample.tick)
    ∧ drop Struct.size
        (Struct.be_bytes 4 7 ++ Struct.be_bytes 8 1700000000000000000
           ++ [255; 216; 255; 217])
      = jpeg_bytes frame.
Proof.
  apply (sent_packet_layout Sample.tick 7 Sample.streaming_world
           (Struct.be_bytes 4 7 ++ Struct.be_bytes 8 1700000000000000000
              ++ [255; 216; 255; 217])
           ("100.64.0.2", 5001)).
  vm_compute. apply list_elem_of_here.
Defined.

Lemma raising_pass_witness :
  let r := stream_iteration Sample.tick (2 ^ 32) Sample.busy_world in
  it_flow r = Raise
  ∧ recording (state (it_world r)) = false
  ∧ it_seq r = 2 ^ 32
  ∧ packet_count (it_effects r) = 0
  ∧ frames_sent (state (it_world r)) = 0
  ∧ RecordingStopped ∈ it_effects r.
Proof.
  pose proof (raising_pass Sample.tick (2 ^ 32) Sample.busy_world
                Sample.frame eq_refl eq_refl) as H.
  cbv zeta in H.
  destruct H as (H1 & H2 & H3 & H4 & H5 & H6); [simpl; lia |].
  split; [exact H1 |]. split; [exact H2 |]. split; [exact H3 |].
  split; [exact H4 |]. split; [exact H5 |]. exact (H6 eq_refl).
Defined.


Lemma lightweight_listener_replies_witness :
  lightweight_listen Ascii7.decode Ascii7.strip Ascii7.upper
    [(encode "ping", Sample.viewer); (encode "hello", Sample.other)]
  = (true, [(encode "PONG", Sample.viewer)])
  ∧ lightweight_listen Ascii7.decode Ascii7.strip Ascii7.upper
      ([(encode "ping", Sample.viewer); (encode "hello", Sample.other)]
         ++ (encode " stop ", Sample.other)
         :: [(encode "ping", Sample.viewer)])
    = (false, [(encode "PONG", Sample.viewer)]).
Proof.
  apply (lightweight_listener_replies Ascii7.decode Ascii7.strip Ascii7.upper
           [(encode "ping", Sample.viewer); (encode "hello", Sample.other)]
           (encode " stop ", Sample.other)
           [(encode "ping", Sample.viewer)]).
  - repeat first [apply Forall_nil_2 | apply Forall_cons_2];
      intros H; vm_compute in H; discriminate H.
  - reflexivity.
Defined.

Lemma name_without_sep_stays_near_witness :
  PosixPath.resolve (PosixPath.join RECORDING_DIR "clip.avi")
  = ["home"; "pi"; "recordings"; "clip.avi"].
Proof. apply (name_without_sep_stays_near "clip.avi"). reflexivity. Defined.

Lemma default_recording_in_directory_witness :
  let w' := (start_recording Sample.env_opens None Sample.world0).1 in
  recording_file (state w') = Some "recording_20240101_120000.avi"
  ∧ PosixPath.resolve
      (PosixPath.join RECORDING_DIR "recording_20240101_120000.avi")
    = ["home"; "pi"; "recordings"; "recording_20240101_120000.avi"]
  ∧ fs w'
    = <[ ["home"; "pi"; "recordings"; "recording_20240101_120000.avi"]
         := File [82; 73; 70; 70] ]> (fs Sample.world0).
Proof.
  apply (default_recording_in_directory Sample.env_opens [82; 73; 70; 70]
           Sample.world0); reflexivity.
Defined.

Lemma bridge_download_names_witness :
  ".." = last_segment "/download/a/.."
  ∧ has_sep ".." = false
  ∧ (PosixPath.resolve (PosixPath.join RECORDING_DIR "..")
     = ["home"; "pi"; "recordings"]
     ∨ PosixPath.resolve (PosixPath.join RECORDING_DIR "..") = ["home"; "pi"]
     ∨ PosixPath.resolve (PosixPath.join RECORDING_DIR "..")
       = ["home"; "pi"; "recordings"; ".."]).
Proof. apply (bridge_download_names "/download/a/.." ".."). reflexivity. Defined.


Lemma bridge_spins_on_not_found_witness :
  let stream :=
    concat (sent (handle_status_client Ascii7.decode Ascii7.strip
                    Sample.no_status Sample.no_listing 2000
                    (encode "DOWNLOAD:missing.avi") Sample.world0)) in
  stream = encode "ERROR: File not found"
  ∧ read_size_line 1000 [] stream = None
  ∧ download_recording Ascii7.decode Ascii7.strip Ascii7.int 1000 [] stream
    = None.
Proof.
  apply (bridge_spins_on_not_found Ascii7.decode Ascii7.strip
           Sample.no_status Sample.no_listing Ascii7.int 2000
           (encode "DOWNLOAD:missing.avi") Sample.world0 "missing.avi"
           1000%nat []);
    reflexivity.
Defined.

Lemma bridge_download_round_trip_witness :
  ∃ body,
    download_recording Ascii7.decode Ascii7.strip Ascii7.int 20 [2; 0; 9; 1; 1]%nat
      (concat (sent (handle_status_client Ascii7.decode Ascii7.strip
                       Sample.no_status Sample.no_listing 2000
                       (encode ("DOWNLOAD:clip.avi" +:+ newline))
                       Sample.world_with_clip)))
    = Some (Sent200 5 body)
    ∧ concat body = [1; 2; 3; 4; 5]
    ∧ Forall (λ c, 0 < Z.of_nat (length c) ≤ 8192) body.
Proof.
  apply (bridge_download_round_trip Ascii7.decode Ascii7.strip
           Sample.no_status Sample.no_listing Ascii7.int 2000
           (encode ("DOWNLOAD:clip.avi" +:+ newline)) Sample.world_with_clip
           ("DOWNLOAD:clip.avi" +:+ newline) "clip.avi" 4096
           [1; 2; 3; 4; 5] 20%nat [2; 0; 9; 1; 1]%nat);
    first [reflexivity | vm_compute; lia].
Defined.

Lemma unpack_then_pack_witness :
  ∃ seq timestamp_ns,
    Struct.unpack [0; 0; 1; 2; 0; 0; 0; 0; 0; 0; 3; 4]
    = Some (seq, timestamp_ns)
    ∧ 0 ≤ seq < 2 ^ 32 ∧ 0 ≤ timestamp_ns < 2 ^ 64
    ∧ Struct.pack seq timestamp_ns
      = Some [0; 0; 1; 2; 0; 0; 0; 0; 0; 0; 3; 4].
Proof.
  apply (unpack_then_pack [0; 0; 1; 2; 0; 0; 0; 0; 0; 0; 3; 4]).
  - reflexivity.
  - repeat first [apply Forall_nil_2 | apply Forall_cons_2]; lia.
Defined.
